(** * Commander Tracker (src/app.py): dashboard aggregation and match recording

    The script keeps three pandas frames (players, decks, the flattened
    history view), derives the dashboard statistics from the history frame and
    records a new match through two successive inserts into the hosted store.
    Frames are modelled as lists of records (one record per row, in frame
    order), the store as explicit state, and exceptions as a sum type. *)

From Stdlib Require Import List ZArith QArith String Ascii Bool Lia.
From Stdlib Require Import Permutation Sorted OrdersEx RelationClasses.
Import ListNotations.

Local Open Scope string_scope.
Local Open Scope Z_scope.

(** ** Exceptions and results *)

(** The exceptions the modelled blocks can raise: [ParserError] from
    [pd.to_datetime], [IndexError] from [.values[0]] on an empty selection,
    [APIError] from a store request. *)
Inductive exn : Type :=
| ParserError
| IndexError
| APIError.

Inductive result (A : Type) : Type :=
| Ok (a : A)
| Raise (e : exn).
Arguments Ok {A} a.
Arguments Raise {A} e.

(** ** Frame primitives *)

Section Frames.
Context {A : Type}.

(** [df[mask]]: rows whose mask entry is [True]. *)
Definition boolean_index (df : list A) (mask : list bool) : list A :=
  map fst (filter snd (combine df mask)).

(** [df.head(n)]. *)
Definition head (n : nat) (df : list A) : list A := firstn n df.

(** Insertion of one row into an ordered frame; [before x y] says that [x]
    may stand in front of [y].  A row goes in front of the rows it ties
    with, so folding from the right keeps ties in frame order. *)
Fixpoint insert_row (before : A -> A -> bool) (x : A) (l : list A) : list A :=
  match l with
  | [] => [x]
  | y :: l' => if before x y then x :: y :: l' else y :: insert_row before x l'
  end.

(** The order a [before] test stands for. *)
Definition ordered (before : A -> A -> bool) (x y : A) : Prop :=
  before x y = true.

(** [sort_values]: ordering of a frame by one column.  Rows that tie are
    left in frame order, as [argsort] leaves them on a short column; on a
    long column the order of ties is a detail of the sorting routine, and
    the statements below that speak of ties hold for any routine. *)
Definition sort_values (before : A -> A -> bool) (df : list A) : list A :=
  fold_right (insert_row before) [] df.
End Frames.

(** [Series.unique()]: distinct values in order of first appearance. *)
Fixpoint unique (col : list string) : list string :=
  match col with
  | [] => []
  | x :: t => x :: filter (fun y => negb (String.eqb y x)) (unique t)
  end.

(** [Series.nunique()] on an integer column. *)
Definition nunique (col : list Z) : Z :=
  Z.of_nat (List.length (nodup Z.eq_dec col)).

(** [Series.sum()] on a boolean column: [True] counts 1. *)
Definition sum_bool (col : list bool) : Z :=
  fold_right (fun (b : bool) (acc : Z) => (if b then 1 else 0) + acc) 0 col.

(** Python compares [str] by code point; on UTF-8 bytes that is the
    lexicographic order of [String_as_OT.compare]. *)
Definition str_le (a b : string) : bool :=
  match String_as_OT.compare a b with Gt => false | _ => true end.

(** The strict order that goes with [str_le]. *)
Definition str_lt : string -> string -> Prop := String_as_OT.lt.

(** Group keys of [groupby]: the distinct keys in ascending order. *)
Fixpoint insert_key (k : string) (keys : list string) : list string :=
  match keys with
  | [] => [k]
  | k' :: rest =>
      match String_as_OT.compare k k' with
      | Lt => k :: keys
      | Eq => keys
      | Gt => k' :: insert_key k rest
      end
  end.

Definition group_keys (col : list string) : list string :=
  fold_right insert_key [] col.

(** ** The history view *)

(** A cell of the [date] column as [pd.to_datetime] sees it: a calendar
    date, a null, or text that does not parse. *)
Inductive date_cell : Type :=
| DateOk (year month day : Z)
| DateNull
| DateBad (raw : string).

Module History.
Record t : Type := {
  match_id : Z;
  date : date_cell;
  player_name : string;
  deck_name : string;
  color_identity : string;
  is_winner : bool;
  turn_eliminated : Z;
  eliminated_by : string
}.
End History.

(** [pd.to_datetime(col)] with the default [errors='raise']: a timestamp or
    [NaT] per cell, or the exception of the first cell that does not parse. *)
Fixpoint to_datetime (col : list date_cell) : result (list (option (Z * Z * Z))) :=
  match col with
  | [] => Ok []
  | c :: rest =>
      match c with
      | DateBad _ => Raise ParserError
      | DateNull =>
          match to_datetime rest with
          | Ok ts => Ok (None :: ts)
          | Raise e => Raise e
          end
      | DateOk y m d =>
          match to_datetime rest with
          | Ok ts => Ok (Some (y, m, d) :: ts)
          | Raise e => Raise e
          end
      end
  end.

(** [.dt.year == ano_sel] on one timestamp; [NaT] compares false. *)
Definition year_is (ano_sel : Z) (ts : option (Z * Z * Z)) : bool :=
  match ts with
  | Some (y, _, _) => Z.eqb y ano_sel
  | None => false
  end.

(** The value of the year select box. *)
Inductive selection : Type :=
| Todos
| Ano (ano : Z).

(** Lines 88-90: the year filter of the dashboard. *)
Definition apply_filter (ano_sel : selection) (df_history : list History.t)
  : result (list History.t) :=
  match ano_sel with
  | Todos => Ok df_history
  | Ano y =>
      match to_datetime (map History.date df_history) with
      | Raise e => Raise e
      | Ok ts => Ok (boolean_index df_history (map (year_is y) ts))
      end
  end.

(** Lines 83-90 as far as exceptions go: before the filter runs, line 84
    parses the whole [date] column to build the options of the year select
    box, whatever is then selected. *)
Definition dashboard_filter (ano_sel : selection) (df_history : list History.t)
  : result (list History.t) :=
  match to_datetime (map History.date df_history) with
  | Raise e => Raise e
  | Ok _ => apply_filter ano_sel df_history
  end.

(** ** Win-rate ranking (lines 111-118) *)

(** A row of the [stats] frame.  [win_rate] is a float column in pandas; it
    is modelled by the exact rational [vitorias / jogos * 100].  The history
    read is capped at 10000 rows, so two different quotients of such counts
    are far more than one float step apart and the float column orders and
    ties exactly as the rational one does. *)
Module Stats.
Record agg : Type := {
  player_name : string;
  jogos : Z;
  vitorias : Z
}.

Record t : Type := {
  row : agg;
  win_rate : Q
}.
End Stats.

(** The rows of one [groupby('player_name')] group. *)
Definition group (df : list History.t) (k : string) : list History.t :=
  filter (fun r => String.eqb (History.player_name r) k) df.

(** [groupby('player_name').agg(jogos=('match_id','nunique'),
    vitorias=('is_winner','sum')).reset_index()]: one row per player, in
    ascending key order. *)
Definition groupby_agg (df : list History.t) : list Stats.agg :=
  map (fun k =>
         {| Stats.player_name := k;
            Stats.jogos := nunique (map History.match_id (group df k));
            Stats.vitorias := sum_bool (map History.is_winner (group df k)) |})
      (group_keys (map History.player_name df)).

(** [stats['win_rate'] = (stats['vitorias'] / stats['jogos']) * 100]. *)
Definition with_win_rate (s : Stats.agg) : Stats.t :=
  {| Stats.row := s;
     Stats.win_rate :=
       (inject_Z (Stats.vitorias s) / inject_Z (Stats.jogos s) * inject_Z 100)%Q |}.

(** Row order of [sort_values('win_rate', ascending=False)]. *)
Definition win_rate_desc (a b : Stats.t) : bool :=
  Qle_bool (Stats.win_rate b) (Stats.win_rate a).

(** The ranking for an arbitrary ordering routine [srt] of the last step. *)
Definition win_rate_ranking_with (srt : list Stats.t -> list Stats.t)
    (df_filtered : list History.t) : list Stats.t :=
  let stats := groupby_agg df_filtered in
  let stats := filter (fun s => 5 <=? Stats.jogos s) stats in
  let stats := map with_win_rate stats in
  head 10 (srt stats).

Definition win_rate_ranking (df_filtered : list History.t) : list Stats.t :=
  win_rate_ranking_with (sort_values win_rate_desc) df_filtered.

(** ** Colour frequency (line 128) *)

Definition Incolor : string := "Incolor".

(** [Series.replace(old, new)]. *)
Definition replace (old new : string) (col : list string) : list string :=
  map (fun v => if String.eqb v old then new else v) col.

(** Number of cells of [col] equal to [k]. *)
Definition count_of (k : string) (col : list string) : Z :=
  Z.of_nat (List.length (filter (String.eqb k) col)).

Definition count_desc (a b : string * Z) : bool := snd b <=? snd a.

(** [Series.value_counts()]: one (value, count) pair per distinct value,
    most frequent first. *)
Definition value_counts (col : list string) : list (string * Z) :=
  sort_values count_desc (map (fun k => (k, count_of k col)) (unique col)).

(** Every category of the filtered frame, before [.head(10)]. *)
Definition color_counts (df_filtered : list History.t) : list (string * Z) :=
  value_counts (replace "" Incolor (map History.color_identity df_filtered)).

(** [cores]: the frame drawn by the pie chart. *)
Definition cores (df_filtered : list History.t) : list (string * Z) :=
  head 10 (color_counts df_filtered).

(** ** Player and deck snapshots (lines 41-64) *)

Module Player.
Record t : Type := {
  player_id : Z;
  name : string
}.
End Player.

Module Deck.
(** A row of the [decks] table as fetched. *)
Record row : Type := {
  deck_id : Z;
  deck_name : string;
  player_id : Z;
  color_identity : string
}.

(** The same row with the two columns added at lines 62-63;
    [owner_name] is [None] for the missing value that [.map] gives an
    unknown owner. *)
Record t : Type := {
  base : row;
  owner_name : option string;
  display_name : string
}.
End Deck.

(** Lookup in [dict(zip(keys, values))]: the last pair with the key wins. *)
Fixpoint dict_get (d : list (Z * string)) (k : Z) : option string :=
  match d with
  | [] => None
  | (k', v) :: rest =>
      match dict_get rest k with
      | Some v' => Some v'
      | None => if k' =? k then Some v else None
      end
  end.

Definition display_name_asc (a b : Deck.t) : bool :=
  str_le (Deck.display_name a) (Deck.display_name b).

(** Lines 62-63 for one deck row whose [player_id] is a key of
    [player_map]: the owner column and the display name made of it.  For a
    deck whose [player_id] is no key, [.map] leaves a missing value in the
    owner column; what line 63 then puts in [display_name] is not a text
    this frame type could hold, and that case is left out of the model:
    the result is [None]. *)
Definition enrich_deck (player_map : list (Z * string)) (d : Deck.row)
  : option Deck.t :=
  match dict_get player_map (Deck.player_id d) with
  | Some owner =>
      Some {| Deck.base := d;
              Deck.owner_name := Some owner;
              Deck.display_name :=
                (Deck.deck_name d ++ " (" ++ owner ++ ")")%string |}
  | None => None
  end.

(** The two added columns for every row of the deck frame, when every row
    has an owner. *)
Fixpoint enrich_decks (player_map : list (Z * string)) (df_decks : list Deck.row)
  : option (list Deck.t) :=
  match df_decks with
  | [] => Some []
  | d :: rest =>
      match enrich_deck player_map d, enrich_decks player_map rest with
      | Some r, Some rs => Some (r :: rs)
      | _, _ => None
      end
  end.

(** Lines 59-64, for snapshots in which every deck has an owner row.
    [None] stands for what lies outside: the frame left without a
    [display_name] column when the guard of line 59 is false (the form of
    the third tab cannot be built from it), and a deck frame in which some
    [player_id] has no player row (see [enrich_deck]). *)
Definition display_decks (df_players : list Player.t) (df_decks : list Deck.row)
  : option (list Deck.t) :=
  match df_players, df_decks with
  | [], _ => None
  | _, [] => None
  | _, _ =>
      let player_map :=
        combine (map Player.player_id df_players) (map Player.name df_players) in
      match enrich_decks player_map df_decks with
      | Some enriched => Some (sort_values display_name_asc enriched)
      | None => None
      end
  end.

(** ** The store and the recording form (lines 186-252) *)

Module Match.
Record t : Type := {
  match_id : Z;
  date : string;
  notes : string
}.
End Match.

Module Participant.
Record t : Type := {
  match_id : Z;
  player_id : Z;
  deck_id : Z;
  is_winner : bool;
  turn_eliminated : Z;
  rank : Z
}.
End Participant.

(** One seat of the form, as appended to [participantes] at line 198. *)
Module Entry.
Record t : Type := {
  nome : string;
  deck_display : string;
  venceu : bool;
  turno : Z
}.
End Entry.

(** The hosted store as the script sees it: the two tables it writes, the
    next identifier of the auto-increment key of [matches], and the fate of
    the coming requests ([true]: the request raises; none left: it is
    served). *)
Record Store : Type := {
  matches : list Match.t;
  match_participants : list Participant.t;
  serial : Z;
  outages : list bool
}.

(** Computations on the store that may raise.  A raised exception keeps the
    store as it was when raised: earlier writes stay. *)
Definition M (A : Type) : Type := Store -> result A * Store.

Definition ret {A : Type} (a : A) : M A := fun s => (Ok a, s).

Definition raise {A : Type} (e : exn) : M A := fun s => (Raise e, s).

Definition bind {A B : Type} (c : M A) (k : A -> M B) : M B :=
  fun s =>
    match c s with
    | (Ok a, s') => k a s'
    | (Raise e, s') => (Raise e, s')
    end.

Notation "x <- c ;; k" := (bind c (fun x => k))
  (at level 61, c at next level, right associativity).
Notation "c ;;; k" := (bind c (fun _ => k))
  (at level 61, right associativity).

(** [.execute()]: the request reaches the store or raises. *)
Definition execute : M unit :=
  fun s =>
    match outages s with
    | [] => (Ok tt, s)
    | down :: later =>
        let s' := {| matches := matches s;
                     match_participants := match_participants s;
                     serial := serial s;
                     outages := later |} in
        if down then (Raise APIError, s') else (Ok tt, s')
    end.

(** [supabase.table("matches").insert(dados_partida).execute()] followed by
    [res_match.data[0]['match_id']]. *)
Definition insert_match (data_jogo notas : string) : M Z :=
  execute ;;;
  fun s =>
    let novo_match_id := serial s in
    (Ok novo_match_id,
     {| matches := matches s ++
          [{| Match.match_id := novo_match_id;
              Match.date := data_jogo;
              Match.notes := notas |}];
        match_participants := match_participants s;
        serial := novo_match_id + 1;
        outages := outages s |}).

(** [supabase.table("match_participants").insert(rows).execute()]: one
    request for the whole batch. *)
Definition insert_participants (dados_participantes : list Participant.t) : M unit :=
  execute ;;;
  fun s =>
    (Ok tt,
     {| matches := matches s;
        match_participants := match_participants s ++ dados_participantes;
        serial := serial s;
        outages := outages s |}).

(** [.values[0]]: the first selected value, [IndexError] when none. *)
Definition values0 (col : list Z) : M Z :=
  match col with
  | [] => raise IndexError
  | v :: _ => ret v
  end.

(** [df_players[df_players['name'] == nome]['player_id']]. *)
Definition player_ids (df_players : list Player.t) (nome : string) : list Z :=
  map Player.player_id
      (filter (fun r => String.eqb (Player.name r) nome) df_players).

(** [df_decks[df_decks['display_name'] == deck_display]['deck_id']]. *)
Definition deck_ids (df_decks : list Deck.t) (deck_display : string) : list Z :=
  map (fun r => Deck.deck_id (Deck.base r))
      (filter (fun r => String.eqb (Deck.display_name r) deck_display) df_decks).

(** The payload appended at lines 235-242. *)
Definition payload (novo_match_id pid did : Z) (p : Entry.t) : Participant.t :=
  {| Participant.match_id := novo_match_id;
     Participant.player_id := pid;
     Participant.deck_id := did;
     Participant.is_winner := Entry.venceu p;
     Participant.turn_eliminated := Entry.turno p;
     Participant.rank := if Entry.venceu p then 1 else 0 |}.

Section Form.
Variable df_players : list Player.t.
Variable df_decks : list Deck.t.

(** The loop of lines 230-242, with [dados_participantes] as the
    accumulator it appends to. *)
Fixpoint preparar (novo_match_id : Z) (validos : list Entry.t)
    (dados_participantes : list Participant.t) : M (list Participant.t) :=
  match validos with
  | [] => ret dados_participantes
  | p :: rest =>
      pid <- values0 (player_ids df_players (Entry.nome p)) ;;
      did <- values0 (deck_ids df_decks (Entry.deck_display p)) ;;
      preparar novo_match_id rest
        (dados_participantes ++ [payload novo_match_id pid did p])
  end.

(** Line 209: the seats with both a player and a deck chosen. *)
Definition validos_of (participantes : list Entry.t) : list Entry.t :=
  filter (fun p => negb (String.eqb (Entry.nome p) "")
                   && negb (String.eqb (Entry.deck_display p) ""))
         participantes.

(** The body of the [try] (lines 215-249). *)
Definition gravar (data_jogo notas : string) (validos : list Entry.t) : M Z :=
  novo_match_id <- insert_match data_jogo notas ;;
  dados_participantes <- preparar novo_match_id validos [] ;;
  insert_participants dados_participantes ;;;
  ret novo_match_id.

(** What the user is shown at the end of a submit: the message of line
    212, of line 248 or of line 252.  In the words of the specification,
    [ErroAoGravar IndexError] is the unresolvable reference and
    [ErroAoGravar APIError] after a stored match is the partial write. *)
Inductive Outcome : Type :=
| InsufficientParticipants
| Registrada (novo_match_id : Z)
| ErroAoGravar (e : exn).

(** The [if submit:] block (lines 207-252), the [recordMatch] of the
    specification. *)
Definition recordMatch (data_jogo notas : string) (participantes : list Entry.t)
    (s : Store) : Outcome * Store :=
  let validos := validos_of participantes in
  if (List.length validos <? 2)%nat then (InsufficientParticipants, s)
  else
    match gravar data_jogo notas validos s with
    | (Ok novo_match_id, s') => (Registrada novo_match_id, s')
    | (Raise e, s') => (ErroAoGravar e, s')
    end.
End Form.

(** ** The period filter in the words of the specification *)

(** "Retain rows whose date's calendar year equals the selected year, or all
    rows if all is selected; if the date cannot be parsed for a row, exclude
    that row."  Used only to compare [apply_filter] with. *)
Definition spec_period_filter (ano_sel : selection) (df_history : list History.t)
  : list History.t :=
  match ano_sel with
  | Todos => df_history
  | Ano y =>
      filter (fun r =>
                match History.date r with
                | DateOk y' _ _ => y' =? y
                | _ => false
                end)
             df_history
  end.

(** A date cell that [pd.to_datetime] rejects. *)
Definition date_bad (r : History.t) : bool :=
  match History.date r with
  | DateBad _ => true
  | _ => false
  end.

(** ** Derived notions used in the statements *)

(** Total of the count column of a (value, count) frame. *)
Definition sum_counts (vc : list (string * Z)) : Z :=
  fold_right Z.add 0 (map snd vc).

(** The category a history row is counted under. *)
Definition category (r : History.t) : string :=
  if String.eqb (History.color_identity r) "" then Incolor
  else History.color_identity r.

(** Number of rows of a group with [is_winner] true. *)
Definition wins_of (df : list History.t) (k : string) : Z :=
  Z.of_nat (List.length (filter History.is_winner (group df k))).

(** Number of distinct [match_id] in a group. *)
Definition games_of (df : list History.t) (k : string) : Z :=
  Z.of_nat (List.length (nodup Z.eq_dec (map History.match_id (group df k)))).

(** A seat both of whose names select at least one snapshot row. *)
Definition resolvable (df_players : list Player.t) (df_decks : list Deck.t)
    (p : Entry.t) : bool :=
  negb (List.length (player_ids df_players (Entry.nome p)) =? 0)%nat
  && negb (List.length (deck_ids df_decks (Entry.deck_display p)) =? 0)%nat.

(** The store once the match row of this submit is written. *)
Definition with_match (data_jogo notas : string) (later : list bool) (s : Store)
  : Store :=
  {| matches := matches s ++
       [{| Match.match_id := serial s;
           Match.date := data_jogo;
           Match.notes := notas |}];
     match_participants := match_participants s;
     serial := serial s + 1;
     outages := later |}.

(** Whether a year, rather than all, is selected. *)
Definition is_year (ano_sel : selection) : bool :=
  match ano_sel with
  | Todos => false
  | Ano _ => true
  end.

(** The payload of a seat when each name is resolved to the first snapshot
    row that carries it. *)
Definition resolved (df_players : list Player.t) (df_decks : list Deck.t)
    (novo_match_id : Z) (p : Entry.t) : Participant.t :=
  payload novo_match_id
    (hd 0 (player_ids df_players (Entry.nome p)))
    (hd 0 (deck_ids df_decks (Entry.deck_display p)))
    p.

(** The store once the batch of this submit is written as well. *)
Definition with_participants (rows : list Participant.t) (later : list bool)
    (s : Store) : Store :=
  {| matches := matches s;
     match_participants := match_participants s ++ rows;
     serial := serial s;
     outages := later |}.

(** ** Top-line figures (lines 93-100) *)

(** [Series.nunique()] on a text column. *)
Definition nunique_str (col : list string) : Z :=
  Z.of_nat (List.length (unique col)).

(** [df_filtered['match_id'].nunique()]. *)
Definition total_jogos (df_filtered : list History.t) : Z :=
  nunique (map History.match_id df_filtered).

(** [df_filtered[df_filtered['is_winner'] == True].shape[0]]. *)
Definition total_vitorias (df_filtered : list History.t) : Z :=
  Z.of_nat (List.length
              (boolean_index df_filtered
                 (map (fun r => Bool.eqb (History.is_winner r) true) df_filtered))).

(** [df_filtered['player_name'].nunique()]. *)
Definition jogadores_ativos (df_filtered : list History.t) : Z :=
  nunique_str (map History.player_name df_filtered).

(** [df_filtered['deck_name'].nunique()]. *)
Definition decks_usados (df_filtered : list History.t) : Z :=
  nunique_str (map History.deck_name df_filtered).

(** ** The select boxes and the password of the third tab (lines 168-184) *)

(** Line 183: the options of the player boxes. *)
Definition lista_jogadores (df_players : list Player.t) : list string :=
  "" :: map Player.name df_players.

(** Line 184: the options of the deck boxes. *)
Definition lista_decks_formatada (df_decks : list Deck.t) : list string :=
  "" :: map Deck.display_name df_decks.

Definition SENHA_GRUPO : string := "mtg2026".

(** The notice under the password box (lines 173, 255, 257). *)
Inductive Aviso : Type :=
| AcessoLiberado
| SenhaIncorreta
| DigiteASenha.

(** Lines 170-257: the third tab for one run of the script; [submit] is
    the value of the form button, and the outcome is [None] when the
    [if submit:] block is not reached. *)
Definition registrar_partida (df_players : list Player.t) (df_decks : list Deck.t)
    (senha_input : string) (submit : bool) (data_jogo notas : string)
    (participantes : list Entry.t) (s : Store)
  : Aviso * option Outcome * Store :=
  if String.eqb senha_input SENHA_GRUPO then
    if submit then
      let (o, s') :=
        recordMatch df_players df_decks data_jogo notas participantes s in
      (AcessoLiberado, Some o, s')
    else (AcessoLiberado, None, s)
  else if negb (String.eqb senha_input "") then (SenhaIncorreta, None, s)
  else (DigiteASenha, None, s).

(** ** Further notions used in the statements *)

(** A seat as the select boxes can produce it. *)
Definition from_boxes (df_players : list Player.t) (df_decks : list Deck.t)
    (p : Entry.t) : Prop :=
  In (Entry.nome p) (lista_jogadores df_players)
  /\ In (Entry.deck_display p) (lista_decks_formatada df_decks).

(** The rows of the [stats] frame that pass the threshold of line 116. *)
Definition qualified (df : list History.t) : list Stats.agg :=
  filter (fun s => 5 <=? Stats.jogos s) (groupby_agg df).

(** Total of the [vitorias] column of the [stats] frame. *)
Definition sum_vitorias (stats : list Stats.agg) : Z :=
  fold_right Z.add 0 (map Stats.vitorias stats).

(** The names of the player rows with a given identifier, in frame order. *)
Definition names_of_id (df_players : list Player.t) (pid : Z) : list string :=
  map Player.name (filter (fun p => Player.player_id p =? pid) df_players).

(** The calendar year of a dated row. *)
Definition in_year (y : Z) (r : History.t) : bool :=
  match History.date r with
  | DateOk y' _ _ => y' =? y
  | _ => false
  end.

(** ** Sample frames *)

Definition hrow (m y : Z) (p c : string) (w : bool) : History.t :=
  {| History.match_id := m;
     History.date := DateOk y 3 14;
     History.player_name := p;
     History.deck_name := "Atraxa";
     History.color_identity := c;
     History.is_winner := w;
     History.turn_eliminated := 0;
     History.eliminated_by := "" |}.

(** Five matches of 2024, Ana winning three of them against Bo. *)
Definition df_league : list History.t :=
  [ hrow 1 2024 "Ana" "WUBG" true;  hrow 1 2024 "Bo" "" false;
    hrow 2 2024 "Ana" "WUBG" true;  hrow 2 2024 "Bo" "" false;
    hrow 3 2024 "Ana" "WUBG" true;  hrow 3 2024 "Bo" "R" false;
    hrow 4 2024 "Ana" "WUBG" false; hrow 4 2024 "Bo" "R" true;
    hrow 5 2024 "Ana" "WUBG" false; hrow 5 2024 "Bo" "R" true ].

(** Five matches in each of which Ana holds two seats, both marked as
    winners. *)
Definition df_two_seats : list History.t :=
  [ hrow 1 2024 "Ana" "WUBG" true; hrow 1 2024 "Ana" "R" true;
    hrow 2 2024 "Ana" "WUBG" true; hrow 2 2024 "Ana" "R" true;
    hrow 3 2024 "Ana" "WUBG" true; hrow 3 2024 "Ana" "R" true;
    hrow 4 2024 "Ana" "WUBG" true; hrow 4 2024 "Ana" "R" true;
    hrow 5 2024 "Ana" "WUBG" true; hrow 5 2024 "Ana" "R" true ].

(** A frame whose second row carries a date that does not parse. *)
Definition df_bad_date : list History.t :=
  [ hrow 1 2024 "Ana" "WUBG" true;
    {| History.match_id := 1;
       History.date := DateBad "14/03/24?";
       History.player_name := "Bo";
       History.deck_name := "Krenko";
       History.color_identity := "R";
       History.is_winner := false;
       History.turn_eliminated := 6;
       History.eliminated_by := "Ana" |} ].

Definition player (i : Z) (n : string) : Player.t :=
  {| Player.player_id := i; Player.name := n |}.

Definition deck (i : Z) (n : string) (owner : Z) (c : string) : Deck.row :=
  {| Deck.deck_id := i; Deck.deck_name := n;
     Deck.player_id := owner; Deck.color_identity := c |}.

Definition seat (n d : string) (w : bool) (t : Z) : Entry.t :=
  {| Entry.nome := n; Entry.deck_display := d;
     Entry.venceu := w; Entry.turno := t |}.

Definition frame_of (o : option (list Deck.t)) : list Deck.t :=
  match o with
  | Some df => df
  | None => []
  end.

(** Two players and one deck each. *)
Definition players2 : list Player.t := [player 1 "Ana"; player 2 "Bo"].
Definition decks2 : list Deck.t :=
  frame_of (display_decks players2
              [deck 10 "Atraxa" 1 "WUBG"; deck 20 "Krenko" 2 "R"]).

(** Two players of the same name, each owning a deck called Atraxa, so that
    the display name [Atraxa (Ana)] selects two decks. *)
Definition players_amb : list Player.t :=
  [player 1 "Ana"; player 3 "Ana"; player 2 "Bo"].
Definition decks_amb : list Deck.t :=
  frame_of (display_decks players_amb
              [deck 10 "Atraxa" 1 "WUBG"; deck 30 "Atraxa" 3 "WUBG";
               deck 20 "Krenko" 2 "R"]).

(** An empty store whose requests are all served. *)
Definition store0 : Store :=
  {| matches := []; match_participants := []; serial := 1; outages := [] |}.

(** The same store when the second request of the submit is refused. *)
Definition store_outage : Store :=
  {| matches := []; match_participants := []; serial := 1;
     outages := [false; true] |}.

Definition seats_plain : list Entry.t :=
  [ seat "Ana" "Atraxa (Ana)" true 0; seat "Bo" "Krenko (Bo)" false 7;
    seat "" "" false 0; seat "" "" false 0 ].

(** Each player is seated with the other player's deck. *)
Definition seats_crossed : list Entry.t :=
  [ seat "Ana" "Krenko (Bo)" true 0; seat "Bo" "Atraxa (Ana)" false 7;
    seat "" "" false 0; seat "" "" false 0 ].

(** The same player and deck in two seats. *)
Definition seats_twice : list Entry.t :=
  [ seat "Ana" "Atraxa (Ana)" true 0; seat "Ana" "Atraxa (Ana)" false 5;
    seat "Bo" "Krenko (Bo)" false 7; seat "" "" false 0 ].

(** One filled seat, and a seat with a player but no deck. *)
Definition seats_alone : list Entry.t :=
  [ seat "Ana" "Atraxa (Ana)" true 0; seat "Bo" "" false 0;
    seat "" "" false 0; seat "" "" false 0 ].

(** A seat whose deck is not in the snapshot. *)
Definition seats_stale : list Entry.t :=
  [ seat "Ana" "Atraxa (Ana)" true 0; seat "Bo" "Omnath (Bo)" false 7;
    seat "" "" false 0; seat "" "" false 0 ].

(** * Properties *)

(** ** Ordered frames *)

Section SortValues.
Context {A : Type}.
Variable before : A -> A -> bool.

Lemma insert_row_perm (x : A) (l : list A) :
  Permutation (x :: l) (insert_row before x l).
Proof.
  induction l as [|y l IH]; simpl.
  - apply Permutation_refl.
  - destruct (before x y).
    + apply Permutation_refl.
    + eapply perm_trans; [apply perm_swap|].
      apply perm_skip, IH.
Qed.

Lemma sort_values_perm (l : list A) : Permutation l (sort_values before l).
Proof.
  induction l as [|x l IH]; simpl.
  - constructor.
  - eapply perm_trans; [apply perm_skip, IH|].
    apply insert_row_perm.
Qed.

Hypothesis before_total : forall x y, before x y = true \/ before y x = true.
Hypothesis before_trans :
  forall x y z, before x y = true -> before y z = true -> before x z = true.

Lemma insert_row_sorted (x : A) (l : list A) :
  StronglySorted (ordered before) l ->
  StronglySorted (ordered before) (insert_row before x l).
Proof.
  induction 1 as [|y l Hs IH Hy]; simpl.
  - constructor; constructor.
  - destruct (before x y) eqn:E.
    + constructor.
      * constructor; assumption.
      * constructor; [exact E|].
        rewrite Forall_forall in Hy |- *.
        intros z Hz. eapply before_trans; [exact E|]. apply Hy, Hz.
    + constructor; [exact IH|].
      assert (Hyx : ordered before y x).
      { destruct (before_total x y) as [H|H]; [congruence|exact H]. }
      rewrite Forall_forall in Hy |- *.
      intros z Hz.
      apply (Permutation_in z (Permutation_sym (insert_row_perm x l))) in Hz.
      destruct Hz as [<-|Hz]; [exact Hyx|apply Hy, Hz].
Qed.

Lemma sort_values_sorted (l : list A) :
  StronglySorted (ordered before) (sort_values before l).
Proof.
  induction l as [|x l IH]; simpl.
  - constructor.
  - apply insert_row_sorted, IH.
Qed.
End SortValues.

Lemma head_incl {A : Type} (n : nat) (l : list A) (x : A) :
  In x (head n l) -> In x l.
Proof.
  unfold head. revert n.
  induction l as [|y l IH]; intros [|n]; simpl; try tauto.
  intros [H|H]; [left; exact H|right; eapply IH, H].
Qed.

Lemma head_sorted {A : Type} (R : A -> A -> Prop) (n : nat) (l : list A) :
  StronglySorted R l -> StronglySorted R (head n l).
Proof.
  intros H. revert n.
  induction H as [|x l Hs IH Hx]; intros [|n]; try constructor.
  - apply IH.
  - rewrite Forall_forall in Hx |- *.
    intros y Hy. apply Hx. eapply (head_incl n), Hy.
Qed.

Lemma head_length {A : Type} (n : nat) (l : list A) :
  (List.length (head n l) <= n)%nat.
Proof. unfold head. apply firstn_le_length. Qed.

(** ** Group keys *)

Lemma str_lt_irrefl (k : string) : ~ str_lt k k.
Proof. apply (StrictOrder_Irreflexive k). Qed.

Lemma str_lt_trans (a b c : string) : str_lt a b -> str_lt b c -> str_lt a c.
Proof. apply (StrictOrder_Transitive a b c). Qed.

Lemma insert_key_In (k x : string) (keys : list string) :
  In x (insert_key k keys) <-> x = k \/ In x keys.
Proof.
  induction keys as [|k' rest IH]; simpl.
  - intuition.
  - destruct (String_as_OT.compare_spec k k') as [E|L|G]; simpl.
    + unfold String_as_OT.eq in E. subst k'. intuition.
    + intuition.
    + rewrite IH. intuition.
Qed.

Lemma insert_key_sorted (k : string) (keys : list string) :
  StronglySorted str_lt keys -> StronglySorted str_lt (insert_key k keys).
Proof.
  induction 1 as [|k' rest Hs IH Hk]; simpl.
  - constructor; constructor.
  - destruct (String_as_OT.compare_spec k k') as [E|L|G].
    + constructor; assumption.
    + constructor; [constructor; assumption|].
      constructor; [exact L|].
      rewrite Forall_forall in Hk |- *.
      intros z Hz. eapply str_lt_trans; [exact L|apply Hk, Hz].
    + constructor; [exact IH|].
      rewrite Forall_forall in Hk |- *.
      intros z Hz. apply insert_key_In in Hz.
      destruct Hz as [->|Hz]; [exact G|apply Hk, Hz].
Qed.

Lemma group_keys_In (col : list string) (x : string) :
  In x (group_keys col) <-> In x col.
Proof.
  induction col as [|k col IH]; simpl.
  - tauto.
  - rewrite insert_key_In, IH. intuition.
Qed.

Lemma group_keys_sorted (col : list string) :
  StronglySorted str_lt (group_keys col).
Proof.
  induction col as [|k col IH]; simpl.
  - constructor.
  - apply insert_key_sorted, IH.
Qed.

Lemma strictly_sorted_NoDup (l : list string) :
  StronglySorted str_lt l -> NoDup l.
Proof.
  induction 1 as [|x l Hs IH Hx]; constructor; [|exact IH].
  intros Hin. rewrite Forall_forall in Hx.
  exact (str_lt_irrefl x (Hx x Hin)).
Qed.

(** Two strictly ascending lists with the same members are the same list. *)
Lemma strictly_sorted_ext (l1 l2 : list string) :
  StronglySorted str_lt l1 -> StronglySorted str_lt l2 ->
  (forall x, In x l1 <-> In x l2) -> l1 = l2.
Proof.
  intros H1. revert l2.
  induction H1 as [|x l1 Hs1 IH Hx]; intros l2 H2 Hmem.
  - destruct l2 as [|y l2]; [reflexivity|].
    exfalso. apply (proj2 (Hmem y)). left; reflexivity.
  - destruct H2 as [|y l2 Hs2 Hy].
    + exfalso. apply (proj1 (Hmem x)). left; reflexivity.
    + rewrite Forall_forall in Hx, Hy.
      assert (Exy : x = y).
      { destruct (proj1 (Hmem x) (or_introl eq_refl)) as [E|Hin]; [auto|].
        destruct (proj2 (Hmem y) (or_introl eq_refl)) as [E|Hin']; [auto|].
        exfalso. apply (str_lt_irrefl x).
        eapply str_lt_trans; [apply Hx, Hin'|apply Hy, Hin]. }
      subst y. f_equal. apply IH; [exact Hs2|].
      intros z; split; intros Hz.
      * destruct (proj1 (Hmem z) (or_intror Hz)) as [E|Hin]; [|exact Hin].
        subst z. exfalso. exact (str_lt_irrefl x (Hx x Hz)).
      * destruct (proj2 (Hmem z) (or_intror Hz)) as [E|Hin]; [|exact Hin].
        subst z. exfalso. exact (str_lt_irrefl x (Hy x Hz)).
Qed.

Lemma group_keys_perm (c1 c2 : list string) :
  Permutation c1 c2 -> group_keys c1 = group_keys c2.
Proof.
  intros HP.
  apply strictly_sorted_ext; try apply group_keys_sorted.
  intros x. rewrite !group_keys_In.
  split; apply Permutation_in; [exact HP|apply Permutation_sym, HP].
Qed.

(** ** Aggregates do not depend on row order *)

Lemma filter_perm {A : Type} (f : A -> bool) (l l' : list A) :
  Permutation l l' -> Permutation (filter f l) (filter f l').
Proof.
  induction 1 as [|x l l' HP IH|x y l|l l' l'' HP1 IH1 HP2 IH2]; simpl.
  - constructor.
  - destruct (f x); [apply perm_skip|]; exact IH.
  - destruct (f x), (f y); try apply Permutation_refl. apply perm_swap.
  - eapply perm_trans; eassumption.
Qed.

Lemma nunique_perm (c c' : list Z) : Permutation c c' -> nunique c = nunique c'.
Proof.
  intros HP. unfold nunique. f_equal.
  apply Permutation_length, NoDup_Permutation; try apply NoDup_nodup.
  intros x. rewrite !nodup_In.
  split; apply Permutation_in; [exact HP|apply Permutation_sym, HP].
Qed.

Lemma sum_bool_is_winner (g : list History.t) :
  sum_bool (map History.is_winner g)
  = Z.of_nat (List.length (filter History.is_winner g)).
Proof.
  induction g as [|r g IH]; simpl; [reflexivity|].
  rewrite IH. destruct (History.is_winner r); simpl List.length; lia.
Qed.

Lemma group_perm (df df' : list History.t) (k : string) :
  Permutation df df' -> Permutation (group df k) (group df' k).
Proof. apply filter_perm. Qed.

Lemma groupby_agg_perm (df df' : list History.t) :
  Permutation df df' -> groupby_agg df = groupby_agg df'.
Proof.
  intros HP. unfold groupby_agg.
  rewrite (group_keys_perm _ _ (Permutation_map History.player_name HP)).
  apply map_ext. intros k. f_equal.
  - apply nunique_perm, Permutation_map, group_perm, HP.
  - rewrite !sum_bool_is_winner. f_equal.
    apply Permutation_length, filter_perm, group_perm, HP.
Qed.

Lemma win_rate_ranking_with_perm (srt : list Stats.t -> list Stats.t)
    (df df' : list History.t) :
  Permutation df df' ->
  win_rate_ranking_with srt df = win_rate_ranking_with srt df'.
Proof.
  intros HP. unfold win_rate_ranking_with.
  rewrite (groupby_agg_perm _ _ HP). reflexivity.
Qed.

(** C9: the ranking is a function of the filtered collection alone.  Two
    runs over the same rows, in whatever order the rows arrive, list the same
    players in the same order, ties included: the groups are laid out in key
    order before the final ordering by win rate is applied. *)
Theorem win_rate_ranking_deterministic (df df' : list History.t) :
  Permutation df df' -> win_rate_ranking df = win_rate_ranking df'.
Proof. apply win_rate_ranking_with_perm. Qed.

Lemma win_rate_ranking_deterministic_witness :
  Permutation df_league (rev df_league)
  /\ win_rate_ranking df_league = win_rate_ranking (rev df_league).
Proof.
  split.
  - apply Permutation_rev.
  - apply (win_rate_ranking_deterministic df_league (rev df_league)).
    apply Permutation_rev.
Defined.

(** ** The win-rate ranking *)

Lemma win_rate_desc_total (a b : Stats.t) :
  win_rate_desc a b = true \/ win_rate_desc b a = true.
Proof.
  unfold win_rate_desc. rewrite !Qle_bool_iff.
  destruct (Qlt_le_dec (Stats.win_rate a) (Stats.win_rate b)) as [H|H].
  - right. apply Qlt_le_weak, H.
  - left. exact H.
Qed.

Lemma win_rate_desc_trans (a b c : Stats.t) :
  win_rate_desc a b = true -> win_rate_desc b c = true -> win_rate_desc a c = true.
Proof.
  unfold win_rate_desc. rewrite !Qle_bool_iff.
  intros H1 H2. eapply Qle_trans; eassumption.
Qed.

(** Where a row of the ranking comes from. *)
Lemma win_rate_ranking_In (df : list History.t) (s : Stats.t) :
  In s (win_rate_ranking df) ->
  exists k,
    In k (map History.player_name df)
    /\ 5 <= games_of df k
    /\ s = with_win_rate {| Stats.player_name := k;
                            Stats.jogos := games_of df k;
                            Stats.vitorias := wins_of df k |}.
Proof.
  unfold win_rate_ranking, win_rate_ranking_with. intros H.
  apply head_incl in H.
  apply (Permutation_in s (Permutation_sym (sort_values_perm _ _))) in H.
  apply in_map_iff in H. destruct H as (a & <- & Ha).
  apply filter_In in Ha. destruct Ha as (Ha & H5).
  unfold groupby_agg in Ha. apply in_map_iff in Ha.
  destruct Ha as (k & <- & Hk). simpl in H5.
  apply (proj1 (group_keys_In _ _)) in Hk.
  exists k. unfold games_of, wins_of.
  rewrite <- sum_bool_is_winner.
  split; [exact Hk|]. split; [apply Z.leb_le, H5|reflexivity].
Qed.

Lemma win_rate_ranking_names_NoDup (df : list History.t) :
  NoDup (map (fun s => Stats.player_name (Stats.row s)) (win_rate_ranking df)).
Proof.
  unfold win_rate_ranking, win_rate_ranking_with.
  set (stats := map with_win_rate _).
  assert (Hst : NoDup (map (fun s => Stats.player_name (Stats.row s)) stats)).
  { unfold stats. rewrite map_map. simpl.
    unfold groupby_agg.
    set (keys := group_keys _).
    assert (Hk : NoDup keys) by apply strictly_sorted_NoDup, group_keys_sorted.
    clearbody keys. clear stats.
    induction Hk as [|k keys Hnotin Hk IH]; simpl; [constructor|].
    destruct (5 <=? _); simpl; [|exact IH].
    constructor; [|exact IH].
    intros Hin. apply in_map_iff in Hin. destruct Hin as (a & Ea & Ha).
    apply filter_In in Ha. destruct Ha as (Ha & _).
    apply in_map_iff in Ha. destruct Ha as (k' & <- & Hk').
    simpl in Ea. subst k'. exact (Hnotin Hk'). }
  assert (Hs : NoDup (map (fun s => Stats.player_name (Stats.row s))
                          (sort_values win_rate_desc stats))).
  { eapply Permutation_NoDup; [|exact Hst].
    apply Permutation_map, sort_values_perm. }
  clearbody stats. revert Hs.
  generalize (sort_values win_rate_desc stats). intros l.
  unfold head. generalize 10%nat. intros n. revert n.
  induction l as [|x l IH]; intros [|n] Hl; simpl; try constructor.
  - inversion Hl as [|? ? Hx Hl']; subst.
    intros Hin. apply Hx.
    apply in_map_iff in Hin. destruct Hin as (y & Ey & Hy).
    apply in_map_iff. exists y. split; [exact Ey|].
    exact (head_incl n l y Hy).
  - inversion Hl; subst. apply IH. assumption.
Qed.

Lemma wins_le_rows (df : list History.t) (k : string) :
  wins_of df k <= Z.of_nat (List.length (group df k)).
Proof.
  unfold wins_of. apply inj_le, filter_length_le.
Qed.

Lemma win_rate_nonneg (v j : Z) :
  0 <= v -> 0 < j -> (0 <= inject_Z v / inject_Z j * inject_Z 100)%Q.
Proof.
  intros Hv Hj.
  apply Qmult_le_0_compat; [|discriminate].
  apply Qle_shift_div_l.
  - change (inject_Z 0 < inject_Z j)%Q. rewrite <- Zlt_Qlt. exact Hj.
  - rewrite Qmult_0_l. change (inject_Z 0 <= inject_Z v)%Q.
    rewrite <- Zle_Qle. exact Hv.
Qed.

Lemma win_rate_at_most_100 (v j : Z) :
  v <= j -> 0 < j -> (inject_Z v / inject_Z j * inject_Z 100 <= inject_Z 100)%Q.
Proof.
  intros Hv Hj.
  rewrite <- (Qmult_1_l (inject_Z 100)) at 2.
  apply Qmult_le_compat_r; [|discriminate].
  apply Qle_shift_div_r.
  - change (inject_Z 0 < inject_Z j)%Q. rewrite <- Zlt_Qlt. exact Hj.
  - rewrite Qmult_1_l. rewrite <- Zle_Qle. exact Hv.
Qed.

(** C4 (counterexample): a player who holds two winning seats in each of
    five matches has 10 wins over 5 games and is ranked with a win rate of
    200, outside the claimed range. *)
Lemma win_rate_ranking_exceeds_100 :
  ~ (forall s, In s (win_rate_ranking df_two_seats) ->
       (0 <= Stats.win_rate s)%Q /\ (Stats.win_rate s <= inject_Z 100)%Q).
Proof.
  intros H.
  destruct (H (with_win_rate {| Stats.player_name := "Ana";
                                Stats.jogos := 5;
                                Stats.vitorias := 10 |})) as [_ Hle].
  - vm_compute. left. reflexivity.
  - vm_compute in Hle. apply Hle. reflexivity.
Qed.

(** C4 (amended): the ranking has one row per player name of the filtered
    frame; the row carries the number of distinct matches of the player's
    rows as games, the number of winning rows as wins and wins / games * 100
    as win rate; no row has fewer than 5 games; every win rate is at least
    0, and at most 100 when no two rows of the player belong to the same
    match; the rows are in descending win-rate order and there are at most
    10 of them. *)
Theorem win_rate_ranking_amended (df : list History.t) :
  (forall s, In s (win_rate_ranking df) ->
     let k := Stats.player_name (Stats.row s) in
     In k (map History.player_name df)
     /\ Stats.jogos (Stats.row s) = games_of df k
     /\ Stats.vitorias (Stats.row s) = wins_of df k
     /\ Stats.win_rate s
        = (inject_Z (wins_of df k) / inject_Z (games_of df k) * inject_Z 100)%Q
     /\ 5 <= Stats.jogos (Stats.row s)
     /\ (0 <= Stats.win_rate s)%Q
     /\ (NoDup (map History.match_id (group df k)) ->
         (Stats.win_rate s <= inject_Z 100)%Q))
  /\ NoDup (map (fun s => Stats.player_name (Stats.row s)) (win_rate_ranking df))
  /\ StronglySorted (fun a b => (Stats.win_rate b <= Stats.win_rate a)%Q)
       (win_rate_ranking df)
  /\ (List.length (win_rate_ranking df) <= 10)%nat.
Proof.
  split; [|split; [|split]].
  - intros s Hs.
    destruct (win_rate_ranking_In df s Hs) as (k & Hk & H5 & ->).
    simpl. repeat split; try assumption.
    + apply win_rate_nonneg; [unfold wins_of|]; lia.
    + intros Hnd. apply win_rate_at_most_100; [|lia].
      unfold games_of. rewrite (nodup_fixed_point Z.eq_dec Hnd).
      rewrite length_map. apply wins_le_rows.
  - apply win_rate_ranking_names_NoDup.
  - unfold win_rate_ranking, win_rate_ranking_with.
    apply head_sorted.
    eapply StronglySorted_ind with
      (P := StronglySorted (fun a b => (Stats.win_rate b <= Stats.win_rate a)%Q));
      [constructor| |apply (sort_values_sorted win_rate_desc
                              win_rate_desc_total win_rate_desc_trans)].
    intros a l _ IH Ha. constructor; [exact IH|].
    rewrite Forall_forall in Ha |- *. intros b Hb.
    apply Qle_bool_iff. exact (Ha b Hb).
  - apply head_length.
Qed.

Lemma win_rate_ranking_amended_witness :
  let s := with_win_rate {| Stats.player_name := "Ana";
                            Stats.jogos := 5;
                            Stats.vitorias := 3 |} in
  In s (win_rate_ranking df_league)
  /\ NoDup (map History.match_id (group df_league "Ana"))
  /\ 5 <= Stats.jogos (Stats.row s)
  /\ (0 <= Stats.win_rate s)%Q
  /\ (Stats.win_rate s <= inject_Z 100)%Q.
Proof.
  intros s.
  assert (Hin : In s (win_rate_ranking df_league)).
  { vm_compute. left. reflexivity. }
  assert (Hnd : NoDup (map History.match_id (group df_league "Ana"))).
  { simpl. repeat constructor; simpl; intuition discriminate. }
  destruct (win_rate_ranking_amended df_league) as (Hrows & _).
  destruct (Hrows s Hin) as (_ & _ & _ & _ & H5 & H0 & H100).
  split; [exact Hin|]. split; [exact Hnd|]. split; [exact H5|].
  split; [exact H0|exact (H100 Hnd)].
Defined.

(** ** Colour frequency *)

Lemma unique_In (col : list string) (x : string) : In x (unique col) <-> In x col.
Proof.
  induction col as [|y col IH]; simpl; [tauto|].
  rewrite filter_In, IH, negb_true_iff, String.eqb_neq.
  destruct (String.eqb_spec x y) as [E|N]; intuition congruence.
Qed.

Lemma unique_NoDup (col : list string) : NoDup (unique col).
Proof.
  induction col as [|y col IH]; simpl; constructor.
  - rewrite filter_In, negb_true_iff, String.eqb_neq. intuition.
  - apply NoDup_filter, IH.
Qed.

Lemma sum_counts_perm (v v' : list (string * Z)) :
  Permutation v v' -> sum_counts v = sum_counts v'.
Proof.
  unfold sum_counts.
  induction 1; simpl; lia.
Qed.

Lemma count_of_cons (k x : string) (col : list string) :
  count_of k (x :: col) = (if String.eqb k x then 1 else 0) + count_of k col.
Proof.
  unfold count_of. simpl. destruct (String.eqb k x); simpl List.length; lia.
Qed.

(** Over duplicate-free keys, exactly one key is the value of a given cell. *)
Lemma indicator_sum (keys : list string) (x : string) :
  NoDup keys ->
  fold_right Z.add 0 (map (fun k => if String.eqb k x then 1 else 0) keys)
  = if in_dec string_dec x keys then 1 else 0.
Proof.
  induction 1 as [|k keys Hnotin Hnd IH]; simpl; [reflexivity|].
  rewrite IH.
  destruct (String.eqb_spec k x) as [E|N].
  - subst k. destruct (string_dec x x) as [E|C]; [|congruence].
    destruct (in_dec string_dec x keys); [contradiction|reflexivity].
  - destruct (string_dec k x) as [E|N']; [contradiction|].
    destruct (in_dec string_dec x keys); reflexivity.
Qed.

Lemma counts_total (keys col : list string) :
  NoDup keys -> (forall x, In x col -> In x keys) ->
  fold_right Z.add 0 (map (fun k => count_of k col) keys)
  = Z.of_nat (List.length col).
Proof.
  intros Hnd. induction col as [|x col IH]; intros Hall.
  - clear. induction keys; simpl; [reflexivity|]. rewrite IHkeys. reflexivity.
  - assert (E : fold_right Z.add 0 (map (fun k => count_of k (x :: col)) keys)
               = fold_right Z.add 0
                   (map (fun k => if String.eqb k x then 1 else 0) keys)
                 + fold_right Z.add 0 (map (fun k => count_of k col) keys)).
    { clear. induction keys as [|k keys IHk]; simpl; [reflexivity|].
      rewrite IHk, count_of_cons. lia. }
    rewrite E, IH, (indicator_sum keys x Hnd).
    + destruct (in_dec string_dec x keys) as [I|C].
      * simpl List.length. lia.
      * exfalso. apply C, Hall. left; reflexivity.
    + intros y Hy. apply Hall. right; exact Hy.
Qed.

Lemma value_counts_total (col : list string) :
  sum_counts (value_counts col) = Z.of_nat (List.length col).
Proof.
  unfold value_counts.
  rewrite <- (sum_counts_perm _ _ (sort_values_perm count_desc _)).
  unfold sum_counts. rewrite map_map. simpl.
  apply counts_total; [apply unique_NoDup|].
  intros x. apply unique_In.
Qed.

Lemma value_counts_In (col : list string) (c : string) (n : Z) :
  In (c, n) (value_counts col) <-> In c col /\ n = count_of c col.
Proof.
  unfold value_counts. split.
  - intros H.
    apply (Permutation_in _ (Permutation_sym (sort_values_perm count_desc _))) in H.
    apply in_map_iff in H. destruct H as (k & E & Hk).
    inversion E; subst. split; [apply unique_In, Hk|reflexivity].
  - intros [Hc ->].
    apply (Permutation_in _ (sort_values_perm count_desc _)).
    apply in_map_iff. exists c. split; [reflexivity|apply unique_In, Hc].
Qed.

Lemma replace_categories (df : list History.t) :
  replace "" Incolor (map History.color_identity df) = map category df.
Proof. unfold replace. rewrite map_map. reflexivity. Qed.

Lemma count_of_category (df : list History.t) (c : string) :
  count_of c (map category df)
  = Z.of_nat (List.length (filter (fun r => String.eqb c (category r)) df)).
Proof.
  unfold count_of. f_equal.
  induction df as [|r df IH]; simpl; [reflexivity|].
  destruct (String.eqb c (category r)); simpl; rewrite IH; reflexivity.
Qed.

(** C7: the colour frequency has one entry per category of the filtered
    frame, a row with an empty [color_identity] being counted under the
    sentinel category (the literal [Incolor] in the source); the empty string
    is never a category; each count is the number of rows of its category;
    and the counts of all categories add up to the number of rows. *)
Theorem color_counts_sum (df : list History.t) :
  sum_counts (color_counts df) = Z.of_nat (List.length df)
  /\ ~ In "" (map fst (color_counts df))
  /\ NoDup (map fst (color_counts df))
  /\ (forall c n, In (c, n) (color_counts df) <->
        In c (map category df)
        /\ n = Z.of_nat (List.length
                 (filter (fun r => String.eqb c (category r)) df))).
Proof.
  unfold color_counts. rewrite replace_categories.
  split; [|split; [|split]].
  - rewrite value_counts_total, length_map. reflexivity.
  - intros H. apply in_map_iff in H. destruct H as ((c, n) & E & H).
    simpl in E. subst c. apply value_counts_In in H. destruct H as (H & _).
    apply in_map_iff in H. destruct H as (r & E & _).
    unfold category in E.
    destruct (String.eqb_spec (History.color_identity r) ""); [discriminate|].
    contradiction.
  - unfold value_counts.
    eapply Permutation_NoDup;
      [apply Permutation_map, sort_values_perm|].
    rewrite map_map. simpl. rewrite map_id. apply unique_NoDup.
  - intros c n. rewrite value_counts_In, count_of_category. reflexivity.
Qed.

(** ** The year filter *)

Lemma to_datetime_raise (df : list History.t) :
  existsb date_bad df = true ->
  to_datetime (map History.date df) = Raise ParserError.
Proof.
  induction df as [|r df IH]; simpl; [discriminate|].
  unfold date_bad at 1.
  destruct (History.date r); simpl; intros H; try reflexivity;
    rewrite (IH H); reflexivity.
Qed.

Lemma to_datetime_ok (df : list History.t) :
  existsb date_bad df = false ->
  exists ts,
    to_datetime (map History.date df) = Ok ts
    /\ forall y, boolean_index df (map (year_is y) ts)
                 = spec_period_filter (Ano y) df.
Proof.
  induction df as [|r df IH]; simpl.
  - intros _. exists []. split; reflexivity.
  - unfold date_bad at 1.
    destruct (History.date r) as [y0 m0 d0| |raw] eqn:E; simpl; intros H;
      try discriminate;
      destruct (IH H) as (ts & Hts & Hidx); rewrite Hts.
    + exists (Some (y0, m0, d0) :: ts). split; [reflexivity|].
      intros y. unfold boolean_index in *. simpl.
      specialize (Hidx y). simpl in Hidx.
      destruct (y0 =? y); simpl; rewrite Hidx; reflexivity.
    + exists (None :: ts). split; [reflexivity|].
      intros y. unfold boolean_index in *. simpl.
      specialize (Hidx y). simpl in Hidx. exact Hidx.
Qed.

(** C5 (counterexample): with the year 2024 selected and one row whose
    date does not parse, the filter raises instead of returning the other
    rows of 2024. *)
Lemma year_filter_raises_on_bad_date :
  apply_filter (Ano 2024) df_bad_date
  <> Ok (spec_period_filter (Ano 2024) df_bad_date).
Proof. vm_compute. discriminate. Qed.

(** C5 (amended): with all selected the filter keeps every row; with a
    year selected and every date parsed (or null) it keeps exactly the rows
    whose date falls in that calendar year; with a year selected and some
    date that does not parse, the filter raises and no row is returned.  The
    dashboard as a whole, which parses the dates once more for the year
    options, raises on such a date whatever is selected. *)
Theorem year_filter_amended (ano_sel : selection) (df_history : list History.t) :
  apply_filter ano_sel df_history
  = (if is_year ano_sel && existsb date_bad df_history
     then Raise ParserError
     else Ok (spec_period_filter ano_sel df_history))
  /\ dashboard_filter ano_sel df_history
     = (if existsb date_bad df_history
        then Raise ParserError
        else Ok (spec_period_filter ano_sel df_history)).
Proof.
  unfold dashboard_filter.
  destruct (existsb date_bad df_history) eqn:E.
  - rewrite (to_datetime_raise _ E).
    destruct ano_sel as [|y]; simpl; [split; reflexivity|].
    rewrite (to_datetime_raise _ E). split; reflexivity.
  - destruct (to_datetime_ok _ E) as (ts & Hts & Hidx).
    rewrite Hts.
    destruct ano_sel as [|y]; simpl; [split; reflexivity|].
    unfold spec_period_filter in Hidx. rewrite Hts, Hidx. split; reflexivity.
Qed.

(** ** Recording a match *)

Section FormFacts.
Variable df_players : list Player.t.
Variable df_decks : list Deck.t.

(** The loop never touches the store; it raises at the first seat one of
    whose names selects nothing, and otherwise appends one payload per
    seat. *)
Lemma preparar_eq (id : Z) (validos : list Entry.t)
    (acc : list Participant.t) (s : Store) :
  preparar df_players df_decks id validos acc s =
    if forallb (resolvable df_players df_decks) validos
    then (Ok (acc ++ map (resolved df_players df_decks id) validos)%list, s)
    else (Raise IndexError, s).
Proof.
  revert acc. induction validos as [|p rest IH]; intros acc; simpl.
  - rewrite app_nil_r. reflexivity.
  - unfold resolvable at 1, resolved at 1, bind.
    destruct (player_ids df_players (Entry.nome p)) as [|pid pids]; simpl;
      [reflexivity|].
    destruct (deck_ids df_decks (Entry.deck_display p)) as [|did dids]; simpl;
      [reflexivity|].
    rewrite IH.
    destruct (forallb (resolvable df_players df_decks) rest); [|reflexivity].
    rewrite <- app_assoc. reflexivity.
Qed.

(** The submit of at least two filled seats, request by request. *)
Lemma recordMatch_eq (data_jogo notas : string) (participantes : list Entry.t)
    (s : Store) :
  (2 <= List.length (validos_of participantes))%nat ->
  recordMatch df_players df_decks data_jogo notas participantes s =
    let validos := validos_of participantes in
    if hd false (outages s)
    then (ErroAoGravar APIError,
          with_participants [] (tl (outages s)) s)
    else
      let s1 := with_match data_jogo notas (tl (outages s)) s in
      if forallb (resolvable df_players df_decks) validos then
        if hd false (outages s1)
        then (ErroAoGravar APIError, with_match data_jogo notas
                                       (tl (tl (outages s))) s)
        else (Registrada (serial s),
              with_participants
                (map (resolved df_players df_decks (serial s)) validos)
                (tl (outages s1)) s1)
      else (ErroAoGravar IndexError, s1).
Proof.
  intros H2. unfold recordMatch.
  destruct (Nat.ltb_spec (List.length (validos_of participantes)) 2) as [C|_];
    [lia|].
  unfold gravar, insert_match, insert_participants, bind, execute, ret.
  destruct s as [ms ps sr out]. simpl.
  destruct out as [|[|] later]; simpl.
  - rewrite preparar_eq.
    destruct (forallb (resolvable df_players df_decks)
                (validos_of participantes)); simpl; reflexivity.
  - unfold with_participants. simpl. rewrite app_nil_r. reflexivity.
  - rewrite preparar_eq.
    destruct (forallb (resolvable df_players df_decks)
                (validos_of participantes)); simpl; [|reflexivity].
    destruct later as [|[|] later']; simpl; reflexivity.
Qed.
End FormFacts.

Section Recording.
Variable df_players : list Player.t.
Variable df_decks : list Deck.t.

Lemma resolvable_iff (p : Entry.t) :
  resolvable df_players df_decks p = true <->
  (1 <= List.length (player_ids df_players (Entry.nome p)))%nat
  /\ (1 <= List.length (deck_ids df_decks (Entry.deck_display p)))%nat.
Proof.
  unfold resolvable.
  rewrite andb_true_iff, !negb_true_iff, !Nat.eqb_neq. lia.
Qed.

(** What a successful submit has done. *)
Lemma recordMatch_registrada (data_jogo notas : string)
    (participantes : list Entry.t) (s s' : Store) (id : Z) :
  recordMatch df_players df_decks data_jogo notas participantes s
    = (Registrada id, s') ->
  id = serial s
  /\ forallb (resolvable df_players df_decks) (validos_of participantes) = true
  /\ matches s' = (matches s ++ [{| Match.match_id := id;
                                    Match.date := data_jogo;
                                    Match.notes := notas |}])%list
  /\ match_participants s'
     = (match_participants s
        ++ map (resolved df_players df_decks id) (validos_of participantes))%list.
Proof.
  intros H.
  destruct (Nat.ltb_spec (List.length (validos_of participantes)) 2) as [C|C].
  - unfold recordMatch in H.
    apply Nat.ltb_lt in C. rewrite C in H. discriminate.
  - rewrite (recordMatch_eq _ _ _ _ _ _ C) in H. cbv zeta in H.
    destruct (hd false (outages s)); [discriminate|].
    destruct (forallb _ (validos_of participantes)); [|discriminate].
    destruct (hd false (outages (with_match _ _ _ s))); [discriminate|].
    inversion H; subst. simpl. repeat split; reflexivity.
Qed.

(** C1 (amended): when at least two seats are filled and the match
    insert is served, a filled seat whose player name or deck display name
    selects no snapshot row makes the submit end in the error message, with
    the [IndexError] of the lookup, after the match row is stored and with
    no participant row; when every filled seat selects at least one row for
    each name (several rows included) and the batch insert is served, the
    submit succeeds and each name is resolved to the first row that carries
    it. *)
Theorem unresolved_reference_amended (data_jogo notas : string)
    (participantes : list Entry.t) (s : Store) :
  (2 <= List.length (validos_of participantes))%nat ->
  hd false (outages s) = false ->
  let validos := validos_of participantes in
  let s1 := with_match data_jogo notas (tl (outages s)) s in
  (forall p, In p validos ->
     List.length (player_ids df_players (Entry.nome p)) = 0%nat
     \/ List.length (deck_ids df_decks (Entry.deck_display p)) = 0%nat ->
     recordMatch df_players df_decks data_jogo notas participantes s
       = (ErroAoGravar IndexError, s1))
  /\ ((forall p, In p validos ->
         (1 <= List.length (player_ids df_players (Entry.nome p)))%nat
         /\ (1 <= List.length (deck_ids df_decks (Entry.deck_display p)))%nat) ->
      hd false (tl (outages s)) = false ->
      recordMatch df_players df_decks data_jogo notas participantes s
        = (Registrada (serial s),
           with_participants
             (map (resolved df_players df_decks (serial s)) validos)
             (tl (tl (outages s))) s1)).
Proof.
  intros H2 Hserved validos s1.
  rewrite (recordMatch_eq _ _ _ _ _ _ H2). cbv zeta. rewrite Hserved.
  fold validos. fold s1. split.
  - intros p Hp Hzero.
    assert (E : forallb (resolvable df_players df_decks) validos = false).
    { apply not_true_is_false. intros Hall.
      rewrite forallb_forall in Hall.
      apply Hall, resolvable_iff in Hp. lia. }
    rewrite E. reflexivity.
  - intros Hall Hbatch.
    assert (E : forallb (resolvable df_players df_decks) validos = true).
    { apply forallb_forall. intros p Hp. apply resolvable_iff, Hall, Hp. }
    rewrite E. simpl. rewrite Hbatch. reflexivity.
Qed.

(** C2 (amended): every participant row of a successful submit carries
    the [player_id] of the first player row whose name is the seat's player
    name and the [deck_id] of the first deck row whose display name is the
    seat's deck display name; the two lookups are made independently of
    each other, and the owner of the deck is not compared with the
    player. *)
Theorem participant_ids_looked_up_separately (data_jogo notas : string)
    (participantes : list Entry.t) (s s' : Store) (id : Z) :
  recordMatch df_players df_decks data_jogo notas participantes s
    = (Registrada id, s') ->
  exists rows,
    match_participants s' = (match_participants s ++ rows)%list
    /\ Forall2
         (fun p r =>
            Participant.match_id r = id
            /\ hd_error (player_ids df_players (Entry.nome p))
               = Some (Participant.player_id r)
            /\ hd_error (deck_ids df_decks (Entry.deck_display p))
               = Some (Participant.deck_id r))
         (validos_of participantes) rows.
Proof.
  intros H. apply recordMatch_registrada in H.
  destruct H as (_ & Hall & _ & Hrows).
  exists (map (resolved df_players df_decks id) (validos_of participantes)).
  split; [exact Hrows|]. clear Hrows.
  rewrite forallb_forall in Hall.
  induction (validos_of participantes) as [|p rest IH]; simpl; constructor.
  - assert (Hp : resolvable df_players df_decks p = true)
      by (apply Hall; left; reflexivity).
    apply resolvable_iff in Hp. unfold resolved. simpl.
    destruct (player_ids df_players (Entry.nome p)); simpl in *; [lia|].
    destruct (deck_ids df_decks (Entry.deck_display p)); simpl in *; [lia|].
    repeat split; reflexivity.
  - apply IH. intros q Hq. apply Hall. right; exact Hq.
Qed.

(** C3: when fewer than two seats remain after the seats with an empty
    player name or an empty deck display name are dropped, the submit ends
    in the message asking for at least two players and the store is left
    exactly as it was: no request is made, no match row and no participant
    row is written. *)
Theorem insufficient_participants_writes_nothing (data_jogo notas : string)
    (participantes : list Entry.t) (s : Store) :
  (List.length (validos_of participantes) < 2)%nat ->
  recordMatch df_players df_decks data_jogo notas participantes s
    = (InsufficientParticipants, s).
Proof.
  intros H. unfold recordMatch.
  apply Nat.ltb_lt in H. rewrite H. reflexivity.
Qed.

(** C6: when the match insert is served and the batch insert that follows
    is refused, the submit ends in the error message; the store then holds
    the new match row, no participant row of it, and nothing has undone
    the first write. *)
Theorem partial_write_leaves_match (data_jogo notas : string)
    (participantes : list Entry.t) (s : Store) (later : list bool) :
  (2 <= List.length (validos_of participantes))%nat ->
  forallb (resolvable df_players df_decks) (validos_of participantes) = true ->
  outages s = false :: true :: later ->
  recordMatch df_players df_decks data_jogo notas participantes s
    = (ErroAoGravar APIError, with_match data_jogo notas later s)
  /\ matches (with_match data_jogo notas later s)
     = (matches s ++ [{| Match.match_id := serial s;
                         Match.date := data_jogo;
                         Match.notes := notas |}])%list
  /\ match_participants (with_match data_jogo notas later s)
     = match_participants s.
Proof.
  intros H2 Hall Hout.
  rewrite (recordMatch_eq _ _ _ _ _ _ H2). cbv zeta.
  rewrite Hall, Hout. simpl. repeat split; reflexivity.
Qed.

(** C8: every participant row of a successful submit has [rank] 1 when
    its seat is marked as winner and 0 otherwise, whatever the other seats
    are. *)
Theorem participant_rank_is_winner_flag (data_jogo notas : string)
    (participantes : list Entry.t) (s s' : Store) (id : Z) :
  recordMatch df_players df_decks data_jogo notas participantes s
    = (Registrada id, s') ->
  exists rows,
    match_participants s' = (match_participants s ++ rows)%list
    /\ Forall2
         (fun p r =>
            Participant.is_winner r = Entry.venceu p
            /\ Participant.rank r = if Entry.venceu p then 1 else 0)
         (validos_of participantes) rows.
Proof.
  intros H. apply recordMatch_registrada in H.
  destruct H as (_ & _ & _ & Hrows).
  exists (map (resolved df_players df_decks id) (validos_of participantes)).
  split; [exact Hrows|]. clear Hrows.
  induction (validos_of participantes) as [|p rest IH]; simpl; constructor.
  - split; reflexivity.
  - exact IH.
Qed.
End Recording.

(** C1 (counterexample): two players called Ana each own a deck called
    Atraxa, so the seat (Ana, Atraxa (Ana)) selects two player rows and two
    deck rows; the submit nevertheless succeeds, the seat being given the
    first of each. *)
Lemma ambiguous_names_are_resolved_to_first :
  ~ (forall p, In p seats_plain ->
       List.length (player_ids players_amb (Entry.nome p)) <> 1%nat
       \/ List.length (deck_ids decks_amb (Entry.deck_display p)) <> 1%nat ->
       fst (recordMatch players_amb decks_amb "2026-11-03" "" seats_plain store0)
       = ErroAoGravar IndexError).
Proof.
  intros H.
  specialize (H (seat "Ana" "Atraxa (Ana)" true 0)).
  assert (C : fst (recordMatch players_amb decks_amb "2026-11-03" ""
                     seats_plain store0) = Registrada 1)
    by (vm_compute; reflexivity).
  rewrite C in H.
  assert (D : Registrada 1 = ErroAoGravar IndexError).
  { apply H.
    - left. reflexivity.
    - right. vm_compute. discriminate. }
  discriminate D.
Qed.

Lemma unresolved_reference_amended_witness :
  recordMatch players2 decks2 "2026-11-03" "" seats_stale store0
  = (ErroAoGravar IndexError, with_match "2026-11-03" "" [] store0)
  /\ recordMatch players_amb decks_amb "2026-11-03" "" seats_plain store0
     = (Registrada 1,
        with_participants
          (map (resolved players_amb decks_amb 1) (validos_of seats_plain))
          [] (with_match "2026-11-03" "" [] store0)).
Proof.
  split.
  - assert (H2 : (2 <= List.length (validos_of seats_stale))%nat)
      by (vm_compute; lia).
    apply (proj1 (unresolved_reference_amended players2 decks2
                    "2026-11-03" "" seats_stale store0 H2 eq_refl)
                 (seat "Bo" "Omnath (Bo)" false 7)).
    + vm_compute. right. left. reflexivity.
    + right. vm_compute. reflexivity.
  - assert (H2 : (2 <= List.length (validos_of seats_plain))%nat)
      by (vm_compute; lia).
    apply (proj2 (unresolved_reference_amended players_amb decks_amb
                    "2026-11-03" "" seats_plain store0 H2 eq_refl)).
    + intros p Hp. vm_compute in Hp.
      destruct Hp as [<-|[<-|[]]]; vm_compute; split; lia.
    + reflexivity.
Defined.

(** C2 (counterexample): Ana is seated with Bo's deck and Bo with Ana's;
    the row written for Ana carries deck 20, whose owner in the deck
    snapshot is player 2, not player 1. *)
Lemma crossed_seats_break_ownership :
  ~ (forall r,
       In r (match_participants
               (snd (recordMatch players2 decks2 "2026-11-03" ""
                       seats_crossed store0))) ->
       exists d, In d decks2
                 /\ Deck.deck_id (Deck.base d) = Participant.deck_id r
                 /\ Deck.player_id (Deck.base d) = Participant.player_id r).
Proof.
  intros H.
  destruct (H (payload 1 1 20 (seat "Ana" "Krenko (Bo)" true 0)))
    as (d & Hd & Hid & Howner).
  - vm_compute. left. reflexivity.
  - vm_compute in Hd.
    destruct Hd as [<-|[<-|[]]]; vm_compute in Hid, Howner; discriminate.
Qed.

Lemma participant_ids_looked_up_separately_witness :
  exists rows,
    match_participants
      (snd (recordMatch players2 decks2 "2026-11-03" "" seats_crossed store0))
    = (match_participants store0 ++ rows)%list
    /\ Forall2
         (fun p r =>
            Participant.match_id r = 1
            /\ hd_error (player_ids players2 (Entry.nome p))
               = Some (Participant.player_id r)
            /\ hd_error (deck_ids decks2 (Entry.deck_display p))
               = Some (Participant.deck_id r))
         (validos_of seats_crossed) rows.
Proof.
  apply (participant_ids_looked_up_separately players2 decks2
           "2026-11-03" "" seats_crossed store0).
  vm_compute. reflexivity.
Defined.

Lemma insufficient_participants_writes_nothing_witness :
  (List.length (validos_of seats_alone) < 2)%nat
  /\ recordMatch players2 decks2 "2026-11-03" "" seats_alone store0
     = (InsufficientParticipants, store0).
Proof.
  assert (H : (List.length (validos_of seats_alone) < 2)%nat)
    by (vm_compute; lia).
  split; [exact H|].
  apply (insufficient_participants_writes_nothing players2 decks2
           "2026-11-03" "" seats_alone store0 H).
Defined.

Lemma partial_write_leaves_match_witness :
  recordMatch players2 decks2 "2026-11-03" "" seats_plain store_outage
  = (ErroAoGravar APIError, with_match "2026-11-03" "" [] store_outage)
  /\ matches (with_match "2026-11-03" "" [] store_outage)
     = [{| Match.match_id := 1; Match.date := "2026-11-03"; Match.notes := "" |}]
  /\ match_participants (with_match "2026-11-03" "" [] store_outage) = [].
Proof.
  assert (H2 : (2 <= List.length (validos_of seats_plain))%nat)
    by (vm_compute; lia).
  apply (partial_write_leaves_match players2 decks2 "2026-11-03" ""
           seats_plain store_outage [] H2); reflexivity.
Defined.

Lemma participant_rank_is_winner_flag_witness :
  exists rows,
    match_participants
      (snd (recordMatch players2 decks2 "2026-11-03" "" seats_plain store0))
    = (match_participants store0 ++ rows)%list
    /\ Forall2
         (fun p r =>
            Participant.is_winner r = Entry.venceu p
            /\ Participant.rank r = if Entry.venceu p then 1 else 0)
         (validos_of seats_plain) rows.
Proof.
  apply (participant_rank_is_winner_flag players2 decks2
           "2026-11-03" "" seats_plain store0 _ 1).
  vm_compute. reflexivity.
Defined.

(** C10: the submit makes no uniqueness check across seats.  With Ana and
    her deck chosen in two of three filled seats and every request served,
    the submit succeeds with match 1 and leaves in the store the row of
    match 1 and one participant row of match 1 per filled seat, in seat
    order, each with the ids its seat resolves to: the first two rows both
    carry player 1 and deck 10, so one match holds a duplicate
    [player_id] and a duplicate [deck_id]. *)
Theorem duplicate_seats_are_recorded :
  let out := recordMatch players2 decks2 "2026-11-03" "" seats_twice store0 in
  let rows := match_participants (snd out) in
  out
  = (Registrada 1,
     {| matches :=
          [{| Match.match_id := 1; Match.date := "2026-11-03";
              Match.notes := "" |}];
        match_participants :=
          [{| Participant.match_id := 1; Participant.player_id := 1;
              Participant.deck_id := 10; Participant.is_winner := true;
              Participant.turn_eliminated := 0; Participant.rank := 1 |};
           {| Participant.match_id := 1; Participant.player_id := 1;
              Participant.deck_id := 10; Participant.is_winner := false;
              Participant.turn_eliminated := 5; Participant.rank := 0 |};
           {| Participant.match_id := 1; Participant.player_id := 2;
              Participant.deck_id := 20; Participant.is_winner := false;
              Participant.turn_eliminated := 7; Participant.rank := 0 |}];
        serial := 2;
        outages := [] |})
  /\ validos_of seats_twice
     = [seat "Ana" "Atraxa (Ana)" true 0; seat "Ana" "Atraxa (Ana)" false 5;
        seat "Bo" "Krenko (Bo)" false 7]
  /\ rows = map (resolved players2 decks2 1) (validos_of seats_twice)
  /\ ~ NoDup (map Entry.nome (validos_of seats_twice))
  /\ List.length rows = List.length (validos_of seats_twice)
  /\ ~ NoDup (map Participant.player_id rows)
  /\ ~ NoDup (map Participant.deck_id rows).
Proof.
  cbv zeta.
  split; [vm_compute; reflexivity|].
  split; [vm_compute; reflexivity|].
  split; [vm_compute; reflexivity|].
  vm_compute.
  split; [|split; [reflexivity|split]].
  - intros H. inversion H as [|x l Hx Hl]; subst.
    apply Hx. left. reflexivity.
  - intros H. inversion H as [|x l Hx Hl]; subst.
    apply Hx. left. reflexivity.
  - intros H. inversion H as [|x l Hx Hl]; subst.
    apply Hx. left. reflexivity.
Qed.

(** ** The deck frame of the form *)

Lemma str_le_iff (a b : string) : str_le a b = true <-> a = b \/ str_lt a b.
Proof.
  unfold str_le, str_lt.
  destruct (String_as_OT.compare_spec a b) as [E|L|G].
  - unfold String_as_OT.eq in E. intuition.
  - intuition.
  - split; [discriminate|].
    intros [E|L].
    + subst b. exfalso. exact (str_lt_irrefl a G).
    + exfalso. exact (str_lt_irrefl a (str_lt_trans _ _ _ L G)).
Qed.

Lemma str_le_total (a b : string) : str_le a b = true \/ str_le b a = true.
Proof.
  rewrite !str_le_iff.
  destruct (String_as_OT.compare_spec a b) as [E|L|G]; unfold str_lt; auto.
Qed.

Lemma str_le_trans (a b c : string) :
  str_le a b = true -> str_le b c = true -> str_le a c = true.
Proof.
  rewrite !str_le_iff.
  intros [->|L1] [->|L2]; auto.
  right. exact (str_lt_trans _ _ _ L1 L2).
Qed.

Lemma enrich_decks_some (player_map : list (Z * string))
    (df_decks : list Deck.row) (rows : list Deck.t) :
  enrich_decks player_map df_decks = Some rows ->
  map Deck.base rows = df_decks
  /\ Forall (fun r =>
               exists owner,
                 dict_get player_map (Deck.player_id (Deck.base r)) = Some owner
                 /\ Deck.owner_name r = Some owner
                 /\ Deck.display_name r
                    = (Deck.deck_name (Deck.base r) ++ " (" ++ owner ++ ")")%string)
            rows.
Proof.
  revert rows. induction df_decks as [|d rest IH]; intros rows H; simpl in H.
  - injection H as <-. split; [reflexivity|constructor].
  - unfold enrich_deck in H.
    destruct (dict_get player_map (Deck.player_id d)) as [owner|] eqn:E;
      [|discriminate].
    destruct (enrich_decks player_map rest) as [rs|]; [|discriminate].
    injection H as <-. destruct (IH rs eq_refl) as (Hb & Hall).
    split; [simpl; rewrite Hb; reflexivity|].
    constructor; [|exact Hall].
    exists owner. simpl. repeat split; try reflexivity. exact E.
Qed.

Lemma enrich_decks_known (player_map : list (Z * string))
    (df_decks : list Deck.row) :
  (forall d, In d df_decks -> dict_get player_map (Deck.player_id d) <> None) ->
  exists rows, enrich_decks player_map df_decks = Some rows.
Proof.
  induction df_decks as [|d rest IH]; intros H; simpl.
  - exists []. reflexivity.
  - unfold enrich_deck.
    destruct (dict_get player_map (Deck.player_id d)) as [owner|] eqn:E.
    + destruct IH as (rs & ->).
      * intros d' Hd'. apply H. right; exact Hd'.
      * eexists. reflexivity.
    + exfalso. apply (H d); [left; reflexivity|exact E].
Qed.

Lemma display_decks_some (df_players : list Player.t)
    (df_decks : list Deck.row) (df : list Deck.t) :
  display_decks df_players df_decks = Some df ->
  exists enriched,
    enrich_decks (combine (map Player.player_id df_players)
                          (map Player.name df_players)) df_decks
    = Some enriched
    /\ df = sort_values display_name_asc enriched.
Proof.
  unfold display_decks.
  destruct df_players as [|p0 ps]; [discriminate|].
  destruct df_decks as [|d0 ds]; [discriminate|].
  destruct (enrich_decks _ (d0 :: ds)) as [enriched|]; [|discriminate].
  intros H. exists enriched. split; [reflexivity|congruence].
Qed.

Lemma hd_error_rev_snoc {A : Type} (l : list A) (x : A) :
  hd_error (rev (x :: l))
  = match hd_error (rev l) with
    | Some y => Some y
    | None => Some x
    end.
Proof.
  simpl. destruct (rev l) as [|y r]; reflexivity.
Qed.

Lemma dict_get_last (df_players : list Player.t) (pid : Z) :
  dict_get (combine (map Player.player_id df_players)
                    (map Player.name df_players)) pid
  = hd_error (rev (names_of_id df_players pid)).
Proof.
  unfold names_of_id.
  induction df_players as [|p ps IH]; [reflexivity|].
  cbn [map combine dict_get filter]. rewrite IH.
  destruct (Player.player_id p =? pid).
  - cbn [map]. rewrite hd_error_rev_snoc. reflexivity.
  - destruct (hd_error _); reflexivity.
Qed.

(** X1: when both snapshots have rows and every deck's [player_id] is
    carried by some player row, the deck frame handed to the form exists
    and holds exactly the fetched deck rows, reordered so that the display
    names ascend, each with the display name made of its deck name and, in
    brackets, the name in its owner column. *)
Theorem display_decks_frame (df_players : list Player.t)
    (df_decks : list Deck.row) :
  df_players <> [] -> df_decks <> [] ->
  (forall d, In d df_decks ->
     names_of_id df_players (Deck.player_id d) <> []) ->
  exists df,
    display_decks df_players df_decks = Some df
    /\ Permutation (map Deck.base df) df_decks
    /\ StronglySorted
         (fun a b => str_le (Deck.display_name a) (Deck.display_name b) = true)
         df
    /\ Forall (fun d =>
                 exists owner,
                   Deck.owner_name d = Some owner
                   /\ Deck.display_name d
                      = (Deck.deck_name (Deck.base d) ++ " ("
                         ++ owner ++ ")")%string) df.
Proof.
  intros Hp Hd Hknown.
  set (pm := combine (map Player.player_id df_players)
                     (map Player.name df_players)).
  destruct (enrich_decks_known pm df_decks) as (rows & Hrows).
  { intros d Hin. unfold pm. rewrite dict_get_last.
    specialize (Hknown d Hin).
    destruct (rev (names_of_id df_players (Deck.player_id d))) eqn:R;
      [|discriminate].
    exfalso. apply Hknown.
    rewrite <- (rev_involutive (names_of_id df_players (Deck.player_id d))), R.
    reflexivity. }
  exists (sort_values display_name_asc rows).
  destruct (enrich_decks_some pm df_decks rows Hrows) as (Hbase & Hall).
  assert (HP := sort_values_perm display_name_asc rows).
  split; [|split; [|split]].
  - unfold display_decks.
    destruct df_players as [|p0 ps]; [congruence|].
    destruct df_decks as [|d0 ds]; [congruence|].
    fold pm. rewrite Hrows. reflexivity.
  - rewrite <- Hbase. apply Permutation_map, Permutation_sym, HP.
  - apply (sort_values_sorted display_name_asc
             (fun x y => str_le_total _ _) (fun x y z => str_le_trans _ _ _)).
  - apply Forall_forall. intros d Hin.
    apply (Permutation_in d (Permutation_sym HP)) in Hin.
    rewrite Forall_forall in Hall.
    destruct (Hall d Hin) as (owner & _ & Ho & Hn).
    exists owner. split; assumption.
Qed.

Lemma display_decks_frame_witness :
  exists df,
    display_decks players_amb
      [deck 10 "Atraxa" 1 "WUBG"; deck 30 "Atraxa" 3 "WUBG";
       deck 20 "Krenko" 2 "R"] = Some df
    /\ Permutation (map Deck.base df)
         [deck 10 "Atraxa" 1 "WUBG"; deck 30 "Atraxa" 3 "WUBG";
          deck 20 "Krenko" 2 "R"]
    /\ StronglySorted
         (fun a b => str_le (Deck.display_name a) (Deck.display_name b) = true)
         df
    /\ Forall (fun d =>
                 exists owner,
                   Deck.owner_name d = Some owner
                   /\ Deck.display_name d
                      = (Deck.deck_name (Deck.base d) ++ " ("
                         ++ owner ++ ")")%string) df.
Proof.
  apply (display_decks_frame players_amb).
  - discriminate.
  - discriminate.
  - intros d Hd. simpl in Hd.
    destruct Hd as [<-|[<-|[<-|[]]]]; vm_compute; discriminate.
Defined.

(** X2: in a deck frame built from snapshots in which every deck has an
    owner row, the owner shown for a deck is the name of the last player
    row that carries the deck's [player_id], and that name is the one in
    the brackets of the display name. *)
Theorem display_decks_owner (df_players : list Player.t)
    (df_decks : list Deck.row) (df : list Deck.t) (d : Deck.t) :
  display_decks df_players df_decks = Some df ->
  In d df ->
  exists owner,
    hd_error (rev (names_of_id df_players (Deck.player_id (Deck.base d))))
    = Some owner
    /\ Deck.owner_name d = Some owner
    /\ Deck.display_name d
       = (Deck.deck_name (Deck.base d) ++ " (" ++ owner ++ ")")%string.
Proof.
  intros H Hd. apply display_decks_some in H.
  destruct H as (enriched & He & ->).
  apply (Permutation_in d (Permutation_sym (sort_values_perm _ _))) in Hd.
  destruct (enrich_decks_some _ _ _ He) as (_ & Hall).
  rewrite Forall_forall in Hall.
  destruct (Hall d Hd) as (owner & Hget & Ho & Hn).
  rewrite dict_get_last in Hget.
  exists owner. repeat split; assumption.
Qed.

Lemma display_decks_owner_witness :
  let d := {| Deck.base := deck 30 "Atraxa" 3 "WUBG";
              Deck.owner_name := Some "Ana";
              Deck.display_name := "Atraxa (Ana)" |} in
  exists owner,
    hd_error (rev (names_of_id players_amb (Deck.player_id (Deck.base d))))
    = Some owner
    /\ Deck.owner_name d = Some owner
    /\ Deck.display_name d
       = (Deck.deck_name (Deck.base d) ++ " (" ++ owner ++ ")")%string.
Proof.
  intros d.
  apply (display_decks_owner players_amb
           [deck 10 "Atraxa" 1 "WUBG"; deck 30 "Atraxa" 3 "WUBG";
            deck 20 "Krenko" 2 "R"] decks_amb d).
  - reflexivity.
  - vm_compute. right. left. reflexivity.
Defined.

(** ** The top-line figures *)

Lemma boolean_index_map {A : Type} (f : A -> bool) (df : list A) :
  boolean_index df (map f df) = filter f df.
Proof.
  unfold boolean_index.
  induction df as [|r df IH]; simpl; [reflexivity|].
  destruct (f r); simpl; rewrite IH; reflexivity.
Qed.

Lemma total_vitorias_count (df : list History.t) :
  total_vitorias df = Z.of_nat (List.length (filter History.is_winner df)).
Proof.
  unfold total_vitorias. rewrite boolean_index_map. do 2 f_equal.
  apply filter_ext. intros r. destruct (History.is_winner r); reflexivity.
Qed.

Lemma nunique_incl (c c' : list Z) : incl c c' -> nunique c <= nunique c'.
Proof.
  intros H. unfold nunique. apply inj_le.
  apply NoDup_incl_length; [apply NoDup_nodup|].
  intros x Hx. apply nodup_In, H, (proj1 (nodup_In Z.eq_dec c x)), Hx.
Qed.

Lemma nunique_le_length (c : list Z) : nunique c <= Z.of_nat (List.length c).
Proof.
  unfold nunique. apply inj_le.
  apply NoDup_incl_length; [apply NoDup_nodup|].
  intros x. apply nodup_In.
Qed.

Lemma nunique_str_incl (c c' : list string) :
  incl c c' -> nunique_str c <= nunique_str c'.
Proof.
  intros H. unfold nunique_str. apply inj_le.
  apply NoDup_incl_length; [apply unique_NoDup|].
  intros x Hx. apply unique_In, H, (proj1 (unique_In c x)), Hx.
Qed.

Lemma nunique_str_le_length (c : list string) :
  nunique_str c <= Z.of_nat (List.length c).
Proof.
  unfold nunique_str. apply inj_le.
  apply NoDup_incl_length; [apply unique_NoDup|].
  intros x. apply unique_In.
Qed.

Lemma nunique_pos (c : list Z) : c <> [] -> 1 <= nunique c.
Proof.
  destruct c as [|x c]; [congruence|]. intros _. unfold nunique.
  assert (H : In x (nodup Z.eq_dec (x :: c))) by (apply nodup_In; left; reflexivity).
  destruct (nodup Z.eq_dec (x :: c)); [contradiction|].
  simpl List.length. lia.
Qed.

Lemma nunique_str_pos (c : list string) : c <> [] -> 1 <= nunique_str c.
Proof.
  destruct c as [|x c]; [congruence|]. intros _. unfold nunique_str.
  simpl List.length. lia.
Qed.

(** X3: each of the four figures lies between 0 and the number of rows
    of the filtered frame; the victories figure is the number of winning
    rows; and unless the frame is empty there is at least one match, one
    active player and one deck. *)
Theorem kpi_bounds (df : list History.t) :
  let n := Z.of_nat (List.length df) in
  (0 <= total_jogos df <= n)
  /\ (0 <= total_vitorias df <= n)
  /\ (0 <= jogadores_ativos df <= n)
  /\ (0 <= decks_usados df <= n)
  /\ total_vitorias df = Z.of_nat (List.length (filter History.is_winner df))
  /\ (df <> [] ->
      1 <= total_jogos df /\ 1 <= jogadores_ativos df /\ 1 <= decks_usados df).
Proof.
  intros n. unfold n.
  assert (Hj := nunique_le_length (map History.match_id df)).
  assert (Hp := nunique_str_le_length (map History.player_name df)).
  assert (Hd := nunique_str_le_length (map History.deck_name df)).
  rewrite length_map in Hj, Hp, Hd.
  assert (Hv := filter_length_le History.is_winner df).
  rewrite total_vitorias_count.
  unfold total_jogos, jogadores_ativos, decks_usados in *.
  repeat split; try lia; try (unfold nunique, nunique_str; lia).
  - apply nunique_pos. destruct df; [congruence|discriminate].
  - apply nunique_str_pos. destruct df; [congruence|discriminate].
  - apply nunique_str_pos. destruct df; [congruence|discriminate].
Qed.

Lemma kpi_bounds_witness :
  df_league <> []
  /\ 1 <= total_jogos df_league <= 10
  /\ total_vitorias df_league = 5.
Proof.
  assert (Hne : df_league <> []) by discriminate.
  destruct (kpi_bounds df_league) as (Hj & _ & _ & _ & Hv & Hpos).
  destruct (Hpos Hne) as (H1 & _).
  split; [exact Hne|]. split; [split; [exact H1|exact (proj2 Hj)]|].
  rewrite Hv. reflexivity.
Defined.

Lemma group_wins_count (df : list History.t) (k : string) :
  Z.of_nat (List.length (filter History.is_winner (group df k)))
  = count_of k (map History.player_name (filter History.is_winner df)).
Proof.
  unfold count_of, group. f_equal.
  induction df as [|r df IH]; simpl; [reflexivity|].
  rewrite (String.eqb_sym (History.player_name r) k).
  destruct (History.is_winner r) eqn:W; simpl;
    destruct (String.eqb k (History.player_name r)); simpl;
    rewrite ?W; simpl; rewrite IH; reflexivity.
Qed.

Lemma filter_filter_length_le {A : Type} (f g : A -> bool) (l : list A) :
  (List.length (filter f (filter g l)) <= List.length (filter f l))%nat.
Proof.
  induction l as [|x l IH]; simpl; [lia|].
  destruct (g x); simpl; destruct (f x); simpl; lia.
Qed.

(** X4: the [stats] frame splits the figures of the header by player: it
    has one row per active player, and its victories column adds up to the
    victories figure. *)
Theorem stats_split_the_figures (df : list History.t) :
  Z.of_nat (List.length (groupby_agg df)) = jogadores_ativos df
  /\ sum_vitorias (groupby_agg df) = total_vitorias df.
Proof.
  split.
  - unfold groupby_agg, jogadores_ativos, nunique_str.
    rewrite length_map. f_equal.
    apply Permutation_length, NoDup_Permutation.
    + apply strictly_sorted_NoDup, group_keys_sorted.
    + apply unique_NoDup.
    + intros x. rewrite group_keys_In, unique_In. reflexivity.
  - unfold sum_vitorias, groupby_agg. rewrite map_map. simpl.
    rewrite total_vitorias_count.
    rewrite <- (length_map History.player_name (filter History.is_winner df)).
    rewrite <- (counts_total (group_keys (map History.player_name df))).
    + f_equal. apply map_ext. intros k.
      rewrite sum_bool_is_winner. apply group_wins_count.
    + apply strictly_sorted_NoDup, group_keys_sorted.
    + intros x Hx. apply group_keys_In.
      apply in_map_iff in Hx. destruct Hx as (r & <- & Hr).
      apply in_map. apply filter_In in Hr. exact (proj1 Hr).
Qed.

(** X5: every row of the [stats] frame stands for a player with at least
    one row in the filtered frame: its games are at least 1, so that the
    division of line 117 never has a zero divisor, and at most the matches
    figure; its victories are between 0 and the victories figure. *)
Theorem stats_row_bounds (df : list History.t) (a : Stats.agg) :
  In a (groupby_agg df) ->
  In (Stats.player_name a) (map History.player_name df)
  /\ 1 <= Stats.jogos a <= total_jogos df
  /\ 0 <= Stats.vitorias a <= total_vitorias df.
Proof.
  unfold groupby_agg. intros Ha.
  apply in_map_iff in Ha. destruct Ha as (k & <- & Hk).
  apply (proj1 (group_keys_In _ _)) in Hk. simpl.
  split; [exact Hk|]. split; [split|split].
  - apply nunique_pos.
    apply in_map_iff in Hk. destruct Hk as (r & Er & Hr).
    assert (Hg : In r (group df k)).
    { apply filter_In. split; [exact Hr|]. apply String.eqb_eq, Er. }
    destruct (group df k); [contradiction|discriminate].
  - apply nunique_incl. intros x Hx.
    apply in_map_iff in Hx. destruct Hx as (r & <- & Hr).
    apply in_map. apply filter_In in Hr. exact (proj1 Hr).
  - rewrite sum_bool_is_winner. lia.
  - rewrite sum_bool_is_winner, total_vitorias_count. apply inj_le.
    apply filter_filter_length_le.
Qed.

Lemma stats_row_bounds_witness :
  let a := {| Stats.player_name := "Bo"; Stats.jogos := 5; Stats.vitorias := 2 |} in
  In a (groupby_agg df_league)
  /\ 1 <= Stats.jogos a <= total_jogos df_league
  /\ 0 <= Stats.vitorias a <= total_vitorias df_league.
Proof.
  intros a.
  assert (Ha : In a (groupby_agg df_league))
    by (vm_compute; right; left; reflexivity).
  split; [exact Ha|].
  exact (proj2 (stats_row_bounds df_league a Ha)).
Defined.

(** ** The year filter and the figures *)

Lemma apply_filter_inv (ano_sel : selection) (df df' : list History.t) :
  apply_filter ano_sel df = Ok df' ->
  match ano_sel with
  | Todos => df' = df
  | Ano y => df' = filter (in_year y) df /\ existsb date_bad df = false
  end.
Proof.
  destruct ano_sel as [|y]; simpl.
  - congruence.
  - destruct (existsb date_bad df) eqn:E.
    + rewrite (to_datetime_raise _ E). discriminate.
    + destruct (to_datetime_ok _ E) as (ts & Hts & Hidx).
      rewrite Hts, Hidx. intros H. injection H as <-. split; reflexivity.
Qed.

Lemma filter_idem {A : Type} (f : A -> bool) (l : list A) :
  filter f (filter f l) = filter f l.
Proof.
  induction l as [|x l IH]; simpl; [reflexivity|].
  destruct (f x) eqn:E; simpl; rewrite ?E, IH; reflexivity.
Qed.

Lemma in_year_not_bad (y : Z) (r : History.t) :
  in_year y r = true -> date_bad r = false.
Proof.
  unfold in_year, date_bad. destruct (History.date r); congruence.
Qed.

Lemma filtered_incl (ano_sel : selection) (df df' : list History.t) :
  apply_filter ano_sel df = Ok df' -> incl df' df.
Proof.
  intros H. apply apply_filter_inv in H.
  destruct ano_sel as [|y].
  - subst df'. apply incl_refl.
  - destruct H as (-> & _). intros r Hr.
    apply filter_In in Hr. exact (proj1 Hr).
Qed.

(** X6: a frame that came out of the year filter goes through the same
    filter unchanged; its rows are rows of the frame that went in, and with
    a year selected each of them carries a date of that year. *)
Theorem year_filter_idempotent (ano_sel : selection) (df df' : list History.t) :
  apply_filter ano_sel df = Ok df' ->
  apply_filter ano_sel df' = Ok df'
  /\ incl df' df
  /\ (forall y, ano_sel = Ano y ->
        Forall (fun r => exists m d, History.date r = DateOk y m d) df').
Proof.
  intros H. split; [|split].
  - apply apply_filter_inv in H. destruct ano_sel as [|y]; [reflexivity|].
    destruct H as (-> & _).
    assert (E : existsb date_bad (filter (in_year y) df) = false).
    { apply not_true_is_false. intros C.
      apply existsb_exists in C. destruct C as (r & Hr & Hbad).
      apply filter_In in Hr. destruct Hr as (_ & Hy).
      rewrite (in_year_not_bad y r Hy) in Hbad. discriminate. }
    simpl. destruct (to_datetime_ok _ E) as (ts & Hts & Hidx).
    rewrite Hts, Hidx. simpl.
    change (Ok (filter (in_year y) (filter (in_year y) df))
            = Ok (filter (in_year y) df)).
    rewrite filter_idem. reflexivity.
  - exact (filtered_incl _ _ _ H).
  - intros y ->. apply apply_filter_inv in H. destruct H as (-> & _).
    apply Forall_forall. intros r Hr.
    apply filter_In in Hr. destruct Hr as (_ & Hy).
    unfold in_year in Hy.
    destruct (History.date r) as [y' m d| |raw]; try discriminate.
    apply Z.eqb_eq in Hy. subst y'. exists m, d. reflexivity.
Qed.

Lemma year_filter_idempotent_witness :
  apply_filter (Ano 2024) (filter (in_year 2024) df_league)
  = Ok (filter (in_year 2024) df_league).
Proof.
  apply (year_filter_idempotent (Ano 2024) df_league). reflexivity.
Defined.

(** X7: filtering by year can only lower the figures of the header: the
    matches, victories, active players and decks of the filtered frame are
    at most those of the whole history. *)
Theorem year_filter_lowers_figures (ano_sel : selection)
    (df df' : list History.t) :
  apply_filter ano_sel df = Ok df' ->
  total_jogos df' <= total_jogos df
  /\ total_vitorias df' <= total_vitorias df
  /\ jogadores_ativos df' <= jogadores_ativos df
  /\ decks_usados df' <= decks_usados df.
Proof.
  intros H.
  assert (Hincl := filtered_incl _ _ _ H).
  split; [|split; [|split]].
  - apply nunique_incl, incl_map, Hincl.
  - rewrite !total_vitorias_count. apply inj_le.
    apply apply_filter_inv in H. destruct ano_sel as [|y].
    + subst df'. lia.
    + destruct H as (-> & _). apply filter_filter_length_le.
  - apply nunique_str_incl, incl_map, Hincl.
  - apply nunique_str_incl, incl_map, Hincl.
Qed.

Lemma year_filter_lowers_figures_witness :
  total_jogos (filter (in_year 2024) df_league) <= total_jogos df_league
  /\ total_vitorias (filter (in_year 2024) df_league) <= total_vitorias df_league
  /\ jogadores_ativos (filter (in_year 2024) df_league) <= jogadores_ativos df_league
  /\ decks_usados (filter (in_year 2024) df_league) <= decks_usados df_league.
Proof.
  apply (year_filter_lowers_figures (Ano 2024) df_league). reflexivity.
Defined.

(** ** The head of an ordered frame *)

Lemma sorted_app_order {A : Type} (R : A -> A -> Prop) (l1 l2 : list A) :
  StronglySorted R (l1 ++ l2) ->
  forall a b, In a l1 -> In b l2 -> R a b.
Proof.
  induction l1 as [|x l1 IH]; simpl; intros H a b Ha Hb; [contradiction|].
  inversion H as [|? ? Hs Hx]; subst.
  destruct Ha as [<-|Ha].
  - rewrite Forall_forall in Hx. apply Hx, in_or_app. right; exact Hb.
  - exact (IH Hs a b Ha Hb).
Qed.

(** A row of an ordered frame is in its head, or the head is full and
    every row of the head stands in front of it. *)
Lemma head_or_behind {A : Type} (R : A -> A -> Prop) (n : nat) (l : list A)
    (x : A) :
  StronglySorted R l -> In x l ->
  In x (head n l)
  \/ (List.length (head n l) = n /\ forall s, In s (head n l) -> R s x).
Proof.
  unfold head. intros Hs Hx.
  rewrite <- (firstn_skipn n l) in Hx, Hs.
  apply in_app_or in Hx. destruct Hx as [Hx|Hx]; [left; exact Hx|right].
  split.
  - rewrite length_firstn. apply Nat.min_l.
    destruct (Nat.le_gt_cases n (List.length l)) as [Hle|Hgt]; [exact Hle|].
    rewrite skipn_all2 in Hx by lia. contradiction.
  - intros s Hin. exact (sorted_app_order R _ _ Hs s x Hin Hx).
Qed.

(** X8: the ranking is the head of the qualified players: it has as many
    rows as there are players with 5 games or more, up to 10, and a
    qualified player left out of it is left out of a full ranking, none of
    whose rows has a lower win rate. *)
Theorem win_rate_ranking_is_top (df : list History.t) :
  List.length (win_rate_ranking df) = Nat.min 10 (List.length (qualified df))
  /\ forall a, In a (qualified df) ->
       In (with_win_rate a) (win_rate_ranking df)
       \/ (List.length (win_rate_ranking df) = 10%nat
           /\ forall s, In s (win_rate_ranking df) ->
                (Stats.win_rate (with_win_rate a) <= Stats.win_rate s)%Q).
Proof.
  unfold win_rate_ranking, win_rate_ranking_with. fold (qualified df).
  set (stats := map with_win_rate (qualified df)).
  split.
  - unfold head. rewrite length_firstn. f_equal.
    rewrite <- (Permutation_length (sort_values_perm win_rate_desc stats)).
    unfold stats. apply length_map.
  - intros a Ha.
    assert (Hin : In (with_win_rate a) (sort_values win_rate_desc stats)).
    { apply (Permutation_in _ (sort_values_perm win_rate_desc stats)).
      unfold stats. apply in_map, Ha. }
    destruct (head_or_behind (ordered win_rate_desc) 10 _ _
                (sort_values_sorted win_rate_desc
                   win_rate_desc_total win_rate_desc_trans stats) Hin)
      as [H|(Hlen & Hall)]; [left; exact H|right].
    split; [exact Hlen|].
    intros s Hs. apply Qle_bool_iff. exact (Hall s Hs).
Qed.

Lemma win_rate_ranking_is_top_witness :
  let a := {| Stats.player_name := "Bo"; Stats.jogos := 5; Stats.vitorias := 2 |} in
  In a (qualified df_league)
  /\ List.length (win_rate_ranking df_league) = 2%nat
  /\ In (with_win_rate a) (win_rate_ranking df_league).
Proof.
  intros a.
  assert (Ha : In a (qualified df_league))
    by (vm_compute; right; left; reflexivity).
  destruct (win_rate_ranking_is_top df_league) as (Hlen & Htop).
  split; [exact Ha|]. split; [exact Hlen|].
  destruct (Htop a Ha) as [H|(H10 & _)]; [exact H|].
  rewrite Hlen in H10. vm_compute in H10. discriminate.
Defined.

(** ** The colour chart *)

Lemma count_desc_total (a b : string * Z) :
  count_desc a b = true \/ count_desc b a = true.
Proof. unfold count_desc. rewrite !Z.leb_le. lia. Qed.

Lemma count_desc_trans (a b c : string * Z) :
  count_desc a b = true -> count_desc b c = true -> count_desc a c = true.
Proof. unfold count_desc. rewrite !Z.leb_le. lia. Qed.

Lemma count_of_In (k : string) (col : list string) :
  In k col -> 1 <= count_of k col.
Proof.
  intros H. unfold count_of.
  assert (Hf : In k (filter (String.eqb k) col)).
  { apply filter_In. split; [exact H|apply String.eqb_refl]. }
  destruct (filter (String.eqb k) col); [contradiction|].
  simpl List.length. lia.
Qed.

Lemma sum_counts_app (v w : list (string * Z)) :
  sum_counts (v ++ w) = sum_counts v + sum_counts w.
Proof.
  unfold sum_counts. induction v as [|x v IH]; simpl; [reflexivity|].
  rewrite IH. lia.
Qed.

Lemma sum_counts_nonneg (v : list (string * Z)) :
  Forall (fun c => 1 <= snd c) v -> 0 <= sum_counts v.
Proof.
  unfold sum_counts. induction 1 as [|x v Hx Hv IH]; simpl; lia.
Qed.

Lemma color_counts_positive (df : list History.t) :
  Forall (fun c => 1 <= snd c) (color_counts df).
Proof.
  apply Forall_forall. intros (c, n) H.
  unfold color_counts in H. apply value_counts_In in H.
  destruct H as (Hc & ->). simpl. apply count_of_In, Hc.
Qed.

Lemma sorted_weaken {A : Type} (R R' : A -> A -> Prop) (l : list A) :
  (forall a b, R a b -> R' a b) -> StronglySorted R l -> StronglySorted R' l.
Proof.
  intros H. induction 1 as [|x l Hl IH Hx]; constructor; [exact IH|].
  rewrite Forall_forall in Hx |- *. intros y Hy. apply H, Hx, Hy.
Qed.

(** X9: the frame of the colour chart holds the most frequent
    categories: at most 10 rows in descending order of count, each count at
    least 1, the counts adding up to no more than the number of rows of the
    filtered frame; a category left out is left out of a full chart, none
    of whose rows has a lower count. *)
Theorem cores_is_top (df : list History.t) :
  StronglySorted (fun a b => snd b <= snd a) (cores df)
  /\ (List.length (cores df) <= 10)%nat
  /\ Forall (fun c => 1 <= snd c) (cores df)
  /\ sum_counts (cores df) <= Z.of_nat (List.length df)
  /\ forall c, In c (color_counts df) ->
       In c (cores df)
       \/ (List.length (cores df) = 10%nat
           /\ forall s, In s (cores df) -> snd c <= snd s).
Proof.
  assert (Hs : StronglySorted (ordered count_desc) (color_counts df)).
  { unfold color_counts, value_counts.
    apply (sort_values_sorted count_desc count_desc_total count_desc_trans). }
  assert (Hle : forall a b : string * Z, ordered count_desc a b -> snd b <= snd a).
  { intros a b H. apply Z.leb_le, H. }
  assert (Hpos := color_counts_positive df).
  unfold cores. split; [|split; [|split; [|split]]].
  - apply head_sorted. exact (sorted_weaken _ _ _ Hle Hs).
  - apply head_length.
  - apply Forall_forall. intros c Hc.
    rewrite Forall_forall in Hpos. apply Hpos, (head_incl 10), Hc.
  - assert (Htot : sum_counts (color_counts df) = Z.of_nat (List.length df)).
    { unfold color_counts. rewrite replace_categories, value_counts_total.
      rewrite length_map. reflexivity. }
    rewrite <- Htot. unfold head.
    rewrite <- (firstn_skipn 10 (color_counts df)) at 2.
    rewrite sum_counts_app.
    assert (0 <= sum_counts (skipn 10 (color_counts df))); [|lia].
    apply sum_counts_nonneg, Forall_forall. intros c Hc.
    rewrite Forall_forall in Hpos. apply Hpos.
    rewrite <- (firstn_skipn 10 (color_counts df)).
    apply in_or_app. right; exact Hc.
  - intros c Hc.
    destruct (head_or_behind (ordered count_desc) 10 _ _ Hs Hc)
      as [H|(Hlen & Hall)]; [left; exact H|right].
    split; [exact Hlen|]. intros s Hin. apply Hle, Hall, Hin.
Qed.

Lemma cores_is_top_witness :
  In ("R", 3) (color_counts df_league) /\ In ("R", 3) (cores df_league).
Proof.
  assert (Hc : In ("R", 3) (color_counts df_league))
    by (vm_compute; right; left; reflexivity).
  split; [exact Hc|].
  destruct (cores_is_top df_league) as (_ & _ & _ & _ & Htop).
  destruct (Htop ("R", 3) Hc) as [H|(H10 & _)]; [exact H|].
  vm_compute in H10. discriminate.
Defined.

(** ** More on recording a match *)

Lemma validos_of_In (participantes : list Entry.t) (p : Entry.t) :
  In p (validos_of participantes) <->
  In p participantes /\ Entry.nome p <> "" /\ Entry.deck_display p <> "".
Proof.
  unfold validos_of.
  rewrite filter_In, andb_true_iff, !negb_true_iff, !String.eqb_neq.
  reflexivity.
Qed.

Lemma validos_of_length (participantes : list Entry.t) :
  (List.length (validos_of participantes) <= List.length participantes)%nat.
Proof. apply filter_length_le. Qed.

Lemma boxes_resolvable (df_players : list Player.t) (df_decks : list Deck.t)
    (participantes : list Entry.t) :
  Forall (from_boxes df_players df_decks) participantes ->
  forallb (resolvable df_players df_decks) (validos_of participantes) = true.
Proof.
  intros H. rewrite Forall_forall in H.
  apply forallb_forall. intros p Hp.
  apply validos_of_In in Hp. destruct Hp as (Hp & Hn & Hd).
  destruct (H p Hp) as (Hbn & Hbd).
  unfold lista_jogadores, lista_decks_formatada in *.
  destruct Hbn as [E|Hbn]; [congruence|].
  destruct Hbd as [E|Hbd]; [congruence|].
  apply in_map_iff in Hbn. destruct Hbn as (r & Er & Hr).
  apply in_map_iff in Hbd. destruct Hbd as (d & Ed & Hd').
  unfold resolvable, player_ids, deck_ids.
  assert (Hp1 : In r (filter (fun r => String.eqb (Player.name r) (Entry.nome p))
                        df_players)).
  { apply filter_In. split; [exact Hr|apply String.eqb_eq, Er]. }
  assert (Hd1 : In d (filter (fun r => String.eqb (Deck.display_name r)
                                         (Entry.deck_display p)) df_decks)).
  { apply filter_In. split; [exact Hd'|apply String.eqb_eq, Ed]. }
  rewrite !length_map.
  destruct (filter _ df_players); [contradiction|].
  destruct (filter _ df_decks); [contradiction|].
  reflexivity.
Qed.

(** X10: when the deck frame of the form comes from snapshots in which
    every deck has an owner row, so that every option of the deck boxes is
    a display name, seats whose player and deck were picked in the select
    boxes always resolve: the submit never ends in the [IndexError] of a
    lookup, and with at least two seats filled and both requests served it
    succeeds. *)
Theorem seats_from_boxes_resolve (df_players : list Player.t)
    (fetched : list Deck.row) (df_decks : list Deck.t)
    (data_jogo notas : string) (participantes : list Entry.t) (s : Store) :
  display_decks df_players fetched = Some df_decks ->
  Forall (from_boxes df_players df_decks) participantes ->
  fst (recordMatch df_players df_decks data_jogo notas participantes s)
  <> ErroAoGravar IndexError
  /\ ((2 <= List.length (validos_of participantes))%nat ->
      hd false (outages s) = false -> hd false (tl (outages s)) = false ->
      fst (recordMatch df_players df_decks data_jogo notas participantes s)
      = Registrada (serial s)).
Proof.
  intros _ H. apply boxes_resolvable in H.
  destruct (Nat.ltb_spec (List.length (validos_of participantes)) 2) as [C|C].
  - split; [|lia]. unfold recordMatch.
    apply Nat.ltb_lt in C. rewrite C. discriminate.
  - rewrite (recordMatch_eq _ _ _ _ _ _ C). cbv zeta. rewrite H. split.
    + destruct (hd false (outages s)); [discriminate|].
      destruct (hd false (outages (with_match _ _ _ s))); discriminate.
    + intros _ H1 H2. rewrite H1. simpl. rewrite H2. reflexivity.
Qed.

Lemma seats_from_boxes_resolve_witness :
  display_decks players2 [deck 10 "Atraxa" 1 "WUBG"; deck 20 "Krenko" 2 "R"]
  = Some decks2
  /\ Forall (from_boxes players2 decks2) seats_crossed
  /\ fst (recordMatch players2 decks2 "2026-11-03" "" seats_crossed store0)
     = Registrada 1.
Proof.
  assert (Hd : display_decks players2
                 [deck 10 "Atraxa" 1 "WUBG"; deck 20 "Krenko" 2 "R"]
               = Some decks2) by reflexivity.
  assert (H : Forall (from_boxes players2 decks2) seats_crossed).
  { repeat constructor; vm_compute; tauto. }
  assert (H2 : (2 <= List.length (validos_of seats_crossed))%nat)
    by (vm_compute; lia).
  split; [exact Hd|]. split; [exact H|].
  exact (proj2 (seats_from_boxes_resolve players2 _ decks2 "2026-11-03" ""
                  seats_crossed store0 Hd H) H2 eq_refl eq_refl).
Defined.

(** X11: when the insert of the match row is refused, the submit ends in
    the error message, the batch insert is not attempted and neither table
    has changed. *)
Theorem match_insert_refused (df_players : list Player.t)
    (df_decks : list Deck.t) (data_jogo notas : string)
    (participantes : list Entry.t) (s : Store) (later : list bool) :
  (2 <= List.length (validos_of participantes))%nat ->
  outages s = true :: later ->
  let out := recordMatch df_players df_decks data_jogo notas participantes s in
  fst out = ErroAoGravar APIError
  /\ matches (snd out) = matches s
  /\ match_participants (snd out) = match_participants s
  /\ outages (snd out) = later.
Proof.
  intros H2 Hout. cbv zeta.
  rewrite (recordMatch_eq _ _ _ _ _ _ H2). cbv zeta. rewrite Hout. simpl.
  rewrite app_nil_r. repeat split; reflexivity.
Qed.

Lemma match_insert_refused_witness :
  let s := {| matches := []; match_participants := []; serial := 1;
              outages := [true] |} in
  let out := recordMatch players2 decks2 "2026-11-03" "" seats_plain s in
  fst out = ErroAoGravar APIError
  /\ matches (snd out) = []
  /\ match_participants (snd out) = []
  /\ outages (snd out) = [].
Proof.
  intros s.
  assert (H2 : (2 <= List.length (validos_of seats_plain))%nat)
    by (vm_compute; lia).
  apply (match_insert_refused players2 decks2 "2026-11-03" "" seats_plain s []
           H2 eq_refl).
Defined.

(** X12: a submit only ever appends to the store.  Whatever the seats and
    whatever the store answers, the matches table afterwards is the one
    before followed by at most one row, the participants table is the one
    before followed by the new rows, and rows are added to the participants
    table only by a submit that succeeds and has added its match row. *)
Theorem store_only_grows (df_players : list Player.t) (df_decks : list Deck.t)
    (data_jogo notas : string) (participantes : list Entry.t) (s : Store) :
  let out := recordMatch df_players df_decks data_jogo notas participantes s in
  exists ms rows,
    matches (snd out) = (matches s ++ ms)%list
    /\ match_participants (snd out) = (match_participants s ++ rows)%list
    /\ (List.length ms <= 1)%nat
    /\ (rows <> [] ->
        fst out = Registrada (serial s) /\ List.length ms = 1%nat).
Proof.
  cbv zeta.
  destruct (Nat.ltb_spec (List.length (validos_of participantes)) 2) as [C|C].
  - unfold recordMatch. apply Nat.ltb_lt in C. rewrite C. simpl.
    exists [], []. rewrite !app_nil_r.
    do 3 (split; [try reflexivity; simpl; lia|]).
    intros Hne. exfalso. apply Hne. reflexivity.
  - rewrite (recordMatch_eq _ _ _ _ _ _ C). cbv zeta.
    destruct (hd false (outages s)).
    + simpl. exists [], []. rewrite !app_nil_r.
      do 3 (split; [try reflexivity; simpl; lia|]).
      intros Hne. exfalso. apply Hne. reflexivity.
    + destruct (forallb _ (validos_of participantes)).
      * destruct (hd false (outages (with_match _ _ _ s))); simpl.
        -- eexists _, [].
           split; [reflexivity|]. split; [symmetry; apply app_nil_r|].
           split; [simpl; lia|].
           intros Hne. exfalso. apply Hne. reflexivity.
        -- eexists _, _.
           do 2 (split; [reflexivity|]).
           split; [simpl; lia|].
           intros _. split; reflexivity.
      * simpl. eexists _, [].
        split; [reflexivity|]. split; [symmetry; apply app_nil_r|].
        split; [simpl; lia|].
        intros Hne. exfalso. apply Hne. reflexivity.
Qed.

Lemma store_only_grows_witness :
  let out := recordMatch players2 decks2 "2026-11-03" "" seats_stale store0 in
  exists ms rows,
    matches (snd out) = (matches store0 ++ ms)%list
    /\ match_participants (snd out) = (match_participants store0 ++ rows)%list
    /\ (List.length ms <= 1)%nat
    /\ (rows <> [] ->
        fst out = Registrada (serial store0) /\ List.length ms = 1%nat).
Proof.
  apply (store_only_grows players2 decks2 "2026-11-03" "" seats_stale store0).
Defined.

(** X13: a submit that succeeds has written one match row, with the date
    and the notes of the form and the identifier it reports, and one
    participant row per filled seat, in seat order, between two and the
    number of seats of the form; each row carries the turn of its seat. *)
Theorem registrada_rows (df_players : list Player.t) (df_decks : list Deck.t)
    (data_jogo notas : string) (participantes : list Entry.t)
    (s s' : Store) (id : Z) :
  recordMatch df_players df_decks data_jogo notas participantes s
    = (Registrada id, s') ->
  matches s' = (matches s ++ [{| Match.match_id := id;
                                 Match.date := data_jogo;
                                 Match.notes := notas |}])%list
  /\ exists rows,
       match_participants s' = (match_participants s ++ rows)%list
       /\ (2 <= List.length rows <= List.length participantes)%nat
       /\ Forall2 (fun p r => Participant.turn_eliminated r = Entry.turno p)
            (validos_of participantes) rows.
Proof.
  intros H.
  destruct (Nat.ltb_spec (List.length (validos_of participantes)) 2) as [C|C].
  { unfold recordMatch in H. apply Nat.ltb_lt in C. rewrite C in H.
    discriminate. }
  assert (Hlen := validos_of_length participantes).
  rewrite (recordMatch_eq _ _ _ _ _ _ C) in H. cbv zeta in H.
  destruct (hd false (outages s)); [discriminate|].
  destruct (forallb _ (validos_of participantes)); [|discriminate].
  destruct (hd false (outages (with_match _ _ _ s))); [discriminate|].
  injection H as <- <-. simpl.
  split; [reflexivity|].
  exists (map (resolved df_players df_decks (serial s)) (validos_of participantes)).
  split; [reflexivity|]. rewrite length_map. split; [lia|].
  clear C Hlen.
  induction (validos_of participantes) as [|p rest IH]; simpl; constructor.
  - reflexivity.
  - exact IH.
Qed.

Lemma registrada_rows_witness :
  let s' := snd (recordMatch players2 decks2 "2026-11-03" "pod" seats_twice store0) in
  matches s' = [{| Match.match_id := 1; Match.date := "2026-11-03";
                   Match.notes := "pod" |}]
  /\ exists rows,
       match_participants s' = rows
       /\ (2 <= List.length rows <= 4)%nat
       /\ Forall2 (fun p r => Participant.turn_eliminated r = Entry.turno p)
            (validos_of seats_twice) rows.
Proof.
  apply (registrada_rows players2 decks2 "2026-11-03" "pod" seats_twice store0).
  vm_compute. reflexivity.
Defined.

Lemma same_names_validos (df_players : list Player.t) (df_decks : list Deck.t)
    (l1 l2 : list Entry.t) :
  map Entry.nome l1 = map Entry.nome l2 ->
  map Entry.deck_display l1 = map Entry.deck_display l2 ->
  List.length (validos_of l1) = List.length (validos_of l2)
  /\ forallb (resolvable df_players df_decks) (validos_of l1)
     = forallb (resolvable df_players df_decks) (validos_of l2).
Proof.
  revert l2. induction l1 as [|p l1 IH]; intros [|q l2] Hn Hd;
    try discriminate; [split; reflexivity|].
  simpl in Hn, Hd. injection Hn as Hn1 Hn. injection Hd as Hd1 Hd.
  destruct (IH l2 Hn Hd) as (IHlen & IHall).
  unfold validos_of in *. simpl. rewrite Hn1, Hd1.
  destruct (negb (String.eqb (Entry.nome q) "")
            && negb (String.eqb (Entry.deck_display q) "")); simpl.
  - rewrite IHlen, IHall. split; [reflexivity|]. f_equal.
    unfold resolvable. rewrite Hn1, Hd1. reflexivity.
  - split; assumption.
Qed.

(** X14: nothing in a submit looks at the winner marks or at the turns:
    two forms that agree on the players and decks of their seats end in the
    same message and leave the same matches table, however many seats are
    marked as winners. *)
Theorem winner_marks_not_checked (df_players : list Player.t)
    (df_decks : list Deck.t) (data_jogo notas : string)
    (l1 l2 : list Entry.t) (s : Store) :
  map Entry.nome l1 = map Entry.nome l2 ->
  map Entry.deck_display l1 = map Entry.deck_display l2 ->
  fst (recordMatch df_players df_decks data_jogo notas l1 s)
  = fst (recordMatch df_players df_decks data_jogo notas l2 s)
  /\ matches (snd (recordMatch df_players df_decks data_jogo notas l1 s))
     = matches (snd (recordMatch df_players df_decks data_jogo notas l2 s)).
Proof.
  intros Hn Hd.
  destruct (same_names_validos df_players df_decks l1 l2 Hn Hd) as (Hlen & Hall).
  destruct (Nat.ltb_spec (List.length (validos_of l1)) 2) as [C|C].
  - assert (C2 : (List.length (validos_of l2) < 2)%nat) by lia.
    unfold recordMatch.
    apply Nat.ltb_lt in C. apply Nat.ltb_lt in C2. rewrite C, C2.
    split; reflexivity.
  - assert (C2 : (2 <= List.length (validos_of l2))%nat) by lia.
    rewrite (recordMatch_eq _ _ _ _ _ _ C), (recordMatch_eq _ _ _ _ _ _ C2).
    cbv zeta. rewrite Hall.
    destruct (hd false (outages s)); [split; reflexivity|].
    destruct (forallb _ (validos_of l2)); [|split; reflexivity].
    destruct (hd false (outages (with_match _ _ _ s))); split; reflexivity.
Qed.

Lemma winner_marks_not_checked_witness :
  fst (recordMatch players2 decks2 "2026-11-03" ""
         [seat "Ana" "Atraxa (Ana)" true 0; seat "Bo" "Krenko (Bo)" true 0] store0)
  = fst (recordMatch players2 decks2 "2026-11-03" ""
           [seat "Ana" "Atraxa (Ana)" false 3; seat "Bo" "Krenko (Bo)" false 4]
           store0).
Proof.
  apply (winner_marks_not_checked players2 decks2 "2026-11-03" ""
           [seat "Ana" "Atraxa (Ana)" true 0; seat "Bo" "Krenko (Bo)" true 0]
           [seat "Ana" "Atraxa (Ana)" false 3; seat "Bo" "Krenko (Bo)" false 4]
           store0); reflexivity.
Defined.

(** X15: the third tab writes to the store only past the password: if a
    run of the tab leaves the store different from what it was, the text
    typed was exactly the group password, the form button was pressed and
    at least two seats were filled; and the form is reached exactly when
    the text typed is the password. *)
Theorem store_written_only_past_the_password (df_players : list Player.t)
    (df_decks : list Deck.t) (senha_input : string) (submit : bool)
    (data_jogo notas : string) (participantes : list Entry.t) (s : Store) :
  let run := registrar_partida df_players df_decks senha_input submit
               data_jogo notas participantes s in
  (snd run <> s ->
   senha_input = SENHA_GRUPO /\ submit = true
   /\ (2 <= List.length (validos_of participantes))%nat)
  /\ (fst (fst run) = AcessoLiberado <-> senha_input = SENHA_GRUPO)
  /\ (snd (fst run) <> None -> senha_input = SENHA_GRUPO /\ submit = true).
Proof.
  cbv zeta. unfold registrar_partida.
  destruct (String.eqb_spec senha_input SENHA_GRUPO) as [E|N].
  - destruct submit.
    + destruct (recordMatch df_players df_decks data_jogo notas participantes s)
        as [o s1] eqn:R. simpl.
      split; [|split; [tauto|tauto]].
      intros Hs. split; [exact E|]. split; [reflexivity|].
      destruct (Nat.ltb_spec (List.length (validos_of participantes)) 2)
        as [C|C]; [|exact C].
      unfold recordMatch in R. apply Nat.ltb_lt in C. rewrite C in R.
      injection R as _ <-. contradiction.
    + simpl. split; [intros C; contradiction|]. split; [tauto|].
      intros C; contradiction.
  - destruct (negb (String.eqb senha_input "")); simpl.
    + split; [intros C; contradiction|].
      split; [split; [discriminate|contradiction]|intros C; contradiction].
    + split; [intros C; contradiction|].
      split; [split; [discriminate|contradiction]|intros C; contradiction].
Qed.

Lemma store_written_only_past_the_password_witness :
  snd (registrar_partida players2 decks2 "mtg2026" true "2026-11-03" ""
         seats_plain store0) <> store0
  /\ (2 <= List.length (validos_of seats_plain))%nat.
Proof.
  assert (H : snd (registrar_partida players2 decks2 "mtg2026" true
                     "2026-11-03" "" seats_plain store0) <> store0).
  { vm_compute. discriminate. }
  split; [exact H|].
  exact (proj2 (proj2 (proj1 (store_written_only_past_the_password
                                players2 decks2 "mtg2026" true "2026-11-03" ""
                                seats_plain store0) H))).
Defined.

(** ** The layout of the [stats] frame *)

(** X16: the [stats] frame lists the players of the filtered frame in
    strictly ascending order of name, so each player has exactly one row,
    and a name is listed exactly when some row of the filtered frame
    carries it. *)
Theorem groupby_agg_layout (df : list History.t) :
  StronglySorted str_lt (map Stats.player_name (groupby_agg df))
  /\ NoDup (map Stats.player_name (groupby_agg df))
  /\ forall k, In k (map Stats.player_name (groupby_agg df))
               <-> In k (map History.player_name df).
Proof.
  assert (E : map Stats.player_name (groupby_agg df)
              = group_keys (map History.player_name df)).
  { unfold groupby_agg. rewrite map_map. simpl. apply map_id. }
  rewrite E. split; [|split].
  - apply group_keys_sorted.
  - apply strictly_sorted_NoDup, group_keys_sorted.
  - intros k. apply group_keys_In.
Qed.
